(** * School Helper backend: schemas, document access and request handlers

    A shallow embedding of [schemas.py], [database.py] and [main.py].

    Modelling conventions.
    - Python [float] values (marks, totals, percentages) are taken as exact
      rationals [Q]; [round(x, 2)] is rounding to the nearest hundredth with
      ties to the even neighbour, which is what Python computes on the exact
      value of its argument.
    - Python dictionaries are [gmap string value]; the dictionaries a caller
      may still hold a reference to live in an explicit heap.
    - The MongoDB driver is an in-memory store: a collection is the list of
      its documents in insertion order.  A driver call raises when the store
      has a pending fault, otherwise it succeeds.
    - Handlers are computations in a state-and-exception monad over the
      process state ([world]). *)

From Stdlib Require Import ZArith QArith Qround Qreduction List Ascii.
From stdpp Require Import base option list strings pretty gmap fin_maps.

Local Open Scope string_scope.
Local Open Scope Z_scope.

Set Warnings "-register-all".

(** ** Python values *)

(** [datetime.date]: a calendar date without time component. *)
Record pydate := Date { d_year : Z; d_month : Z; d_day : Z }.

(** The values that occur in dictionaries and documents. *)
Inductive value :=
| VNone
| VBool (b : bool)
| VInt (z : Z)
| VFloat (q : Q)
| VStr (s : string)
| VDate (d : pydate)
| VDateTime (t : Z)            (* a UTC instant, in microseconds *)
| VObjectId (o : N)            (* a store-generated 12-byte identifier *)
| VList (l : list value)
| VDict (kvs : list (string * value)).

Definition opt_str (o : option string) : value :=
  match o with Some s => VStr s | None => VNone end.
Definition opt_date (o : option pydate) : value :=
  match o with Some d => VDate d | None => VNone end.
Definition opt_float (o : option Q) : value :=
  match o with Some q => VFloat q | None => VNone end.

Definition date_eqb (a b : pydate) : bool :=
  (d_year a =? d_year b) && (d_month a =? d_month b) && (d_day a =? d_day b).

(** Equality of values as the store compares them in an equality filter:
    numbers by numeric value, everything else structurally. *)
Fixpoint value_eqb (a b : value) {struct a} : bool :=
  match a, b with
  | VNone, VNone => true
  | VBool x, VBool y => Bool.eqb x y
  | VInt x, VInt y => x =? y
  | VInt x, VFloat y => Qeq_bool (inject_Z x) y
  | VFloat x, VInt y => Qeq_bool x (inject_Z y)
  | VFloat x, VFloat y => Qeq_bool x y
  | VStr x, VStr y => String.eqb x y
  | VDate x, VDate y => date_eqb x y
  | VDateTime x, VDateTime y => x =? y
  | VObjectId x, VObjectId y => (x =? y)%N
  | VList xs, VList ys =>
      (fix go (xs ys : list value) : bool :=
         match xs, ys with
         | [], [] => true
         | x :: xs', y :: ys' => value_eqb x y && go xs' ys'
         | _, _ => false
         end) xs ys
  | VDict xs, VDict ys =>
      (fix go (xs ys : list (string * value)) : bool :=
         match xs, ys with
         | [], [] => true
         | (k, x) :: xs', (k', y) :: ys' =>
             String.eqb k k' && value_eqb x y && go xs' ys'
         | _, _ => false
         end) xs ys
  | _, _ => false
  end.

(** A Python dictionary with string keys. *)
Abbreviation pydict := (gmap string value).

(** Truth value of a dictionary: empty dictionaries are falsy. *)
Definition dict_truthy (d : pydict) : bool :=
  match map_to_list d with [] => false | _ :: _ => true end.

Definition is_None {A} (o : option A) : bool :=
  match o with None => true | Some _ => false end.

(** Truth value of a string: the empty string is falsy. *)
Definition str_truthy (s : string) : bool :=
  match s with EmptyString => false | String _ _ => true end.

(** ** Exceptions and results *)

Inductive exn :=
| HTTPException (status_code : Z) (detail : string)
| ValidationError (errors : list (string * string))   (* field, violated rule *)
| ZeroDivisionError
| KeyError (key : string)
| TypeError (msg : string)
| Exception (msg : string).

Inductive result (A : Type) :=
| Ok (a : A)
| Raise (e : exn).
Arguments Ok {A} a.
Arguments Raise {A} e.

(** ** Numbers *)

Definition Qlt_bool (x y : Q) : bool := negb (Qle_bool y x).

(** [x / y] on floats. *)
Definition truediv (x y : Q) : result Q :=
  if Qeq_bool y 0 then Raise ZeroDivisionError else Ok (x / y)%Q.

(** [sum(...)] over a sequence of numbers: a left fold starting at [0]. *)
Definition pysum (xs : list Q) : Q := fold_left Qplus xs 0%Q.

(** Nearest integer, ties to even. *)
Definition round_half_even (x : Q) : Z :=
  let f := Qfloor x in
  let r := (x - inject_Z f)%Q in
  if Qlt_bool r (1 # 2) then f
  else if Qlt_bool (1 # 2) r then f + 1
  else if Z.even f then f else f + 1.

(** [round(x, 2)]. *)
Definition round2 (x : Q) : Q :=
  Qred (Qmake (round_half_even (x * 100)) 100).

(** ** schemas.py *)

Module Student.
Record t := {
  full_name : string;
  roll_no : string;
  class_name : string;
  section : option string;
  dob : option pydate;
  guardian_name : option string;
  contact : option string;
  address : option string }.

Definition model_dump (s : t) : pydict :=
  list_to_map
    [("full_name", VStr (full_name s)); ("roll_no", VStr (roll_no s));
     ("class_name", VStr (class_name s)); ("section", opt_str (section s));
     ("dob", opt_date (dob s)); ("guardian_name", opt_str (guardian_name s));
     ("contact", opt_str (contact s)); ("address", opt_str (address s))].
End Student.

Module SubjectMark.
Record t := { name : string; marks : Q; max_marks : Q }.

(** [marks: ge=0], [max_marks: gt=0]. *)
Definition constraints (s : t) : bool :=
  Qle_bool 0 (marks s) && Qlt_bool 0 (max_marks s).

Definition model_dump (s : t) : value :=
  VDict [("name", VStr (name s)); ("marks", VFloat (marks s));
         ("max_marks", VFloat (max_marks s))].
End SubjectMark.

Module Marksheet.
Record t := {
  student_id : string;
  exam_name : string;
  class_name : string;
  year : Z;
  subjects : list SubjectMark.t;
  total_obtained : option Q;
  total_max : option Q;
  percentage : option Q;
  grade : option string;
  remarks : option string }.

Definition opt_holds (p : Q -> bool) (o : option Q) : bool :=
  match o with Some q => p q | None => true end.

(** The [Field] constraints, as checked when a request body is validated. *)
Definition constraints (m : t) : bool :=
  (1900 <=? year m) && (year m <=? 3000)
  && forallb SubjectMark.constraints (subjects m)
  && opt_holds (Qle_bool 0) (total_obtained m)
  && opt_holds (Qle_bool 0) (total_max m)
  && opt_holds (fun q => Qle_bool 0 q && Qle_bool q 100) (percentage m).

(** Attribute assignment [sheet.<field> = v]; the models do not validate
    on assignment. *)
Definition set_total_obtained (v : Q) (m : t) : t :=
  {| student_id := student_id m; exam_name := exam_name m;
     class_name := class_name m; year := year m; subjects := subjects m;
     total_obtained := Some v; total_max := total_max m;
     percentage := percentage m; grade := grade m; remarks := remarks m |}.
Definition set_total_max (v : Q) (m : t) : t :=
  {| student_id := student_id m; exam_name := exam_name m;
     class_name := class_name m; year := year m; subjects := subjects m;
     total_obtained := total_obtained m; total_max := Some v;
     percentage := percentage m; grade := grade m; remarks := remarks m |}.
Definition set_percentage (v : Q) (m : t) : t :=
  {| student_id := student_id m; exam_name := exam_name m;
     class_name := class_name m; year := year m; subjects := subjects m;
     total_obtained := total_obtained m; total_max := total_max m;
     percentage := Some v; grade := grade m; remarks := remarks m |}.
Definition set_grade (v : string) (m : t) : t :=
  {| student_id := student_id m; exam_name := exam_name m;
     class_name := class_name m; year := year m; subjects := subjects m;
     total_obtained := total_obtained m; total_max := total_max m;
     percentage := percentage m; grade := Some v; remarks := remarks m |}.

Definition model_dump (m : t) : pydict :=
  list_to_map
    [("student_id", VStr (student_id m)); ("exam_name", VStr (exam_name m));
     ("class_name", VStr (class_name m)); ("year", VInt (year m));
     ("subjects", VList (map SubjectMark.model_dump (subjects m)));
     ("total_obtained", opt_float (total_obtained m));
     ("total_max", opt_float (total_max m));
     ("percentage", opt_float (percentage m));
     ("grade", opt_str (grade m)); ("remarks", opt_str (remarks m))].
End Marksheet.

Module AdmitCard.
Record t := {
  student_id : string;
  roll_no : string;
  class_name : string;
  exam_name : string;
  exam_date : option pydate;
  center : option string;
  issued_on : option pydate }.

Definition model_dump (c : t) : pydict :=
  list_to_map
    [("student_id", VStr (student_id c)); ("roll_no", VStr (roll_no c));
     ("class_name", VStr (class_name c)); ("exam_name", VStr (exam_name c));
     ("exam_date", opt_date (exam_date c)); ("center", opt_str (center c));
     ("issued_on", opt_date (issued_on c))].
End AdmitCard.

(** A decoded JSON request body. *)
Inductive json :=
| JNull
| JBool (b : bool)
| JNum (q : Q)
| JStr (s : string)
| JArr (l : list json)
| JObj (kvs : list (string * json)).

Module Attendance.
(** [Literal['Present','Absent','Late']]. *)
Inductive status_t := Present | Absent | Late.

Definition status_str (s : status_t) : string :=
  match s with Present => "Present" | Absent => "Absent" | Late => "Late" end.

Record t := {
  student_id : string;
  date : pydate;
  status : status_t;
  remarks : option string }.

Definition model_dump (a : t) : pydict :=
  list_to_map
    [("student_id", VStr (student_id a)); ("date", VDate (date a));
     ("status", VStr (status_str (status a)));
     ("remarks", opt_str (remarks a))].

(** Validators for the declared field types [str], [Optional[str]] and
    [Literal[...]], on a field of a JSON body ([None]: the field is absent).
    Each returns the validated value or the rule that the input violates. *)
Definition validate_str (o : option json) : string + string :=
  match o with
  | None => inr "missing"
  | Some (JStr s) => inl s
  | Some _ => inr "string_type"
  end.

Definition validate_opt_str (o : option json) : option string + string :=
  match o with
  | None | Some JNull => inl None
  | Some (JStr s) => inl (Some s)
  | Some _ => inr "string_type"
  end.

Definition validate_status (o : option json) : status_t + string :=
  match o with
  | None => inr "missing"
  | Some (JStr s) =>
      if String.eqb s "Present" then inl Present
      else if String.eqb s "Absent" then inl Absent
      else if String.eqb s "Late" then inl Late
      else inr "literal_error"
  | Some _ => inr "literal_error"
  end.

Definition errors_of {A} (field : string) (r : A + string)
  : list (string * string) :=
  match r with inl _ => [] | inr e => [(field, e)] end.

Section Validate.
(** The date parser of the validation library: the accepted spellings of
    a calendar date are its business. *)
Variable validate_date : option json -> pydate + string.

(** Validation of a request body against the schema: either the model,
    or every offending field with the rule it violates. *)
Definition model_validate (body : gmap string json) : result t :=
  let sid := validate_str (body !! "student_id") in
  let dt := validate_date (body !! "date") in
  let st := validate_status (body !! "status") in
  let rm := validate_opt_str (body !! "remarks") in
  match sid, dt, st, rm with
  | inl sid, inl dt, inl st, inl rm =>
      Ok {| student_id := sid; date := dt; status := st; remarks := rm |}
  | _, _, _, _ =>
      Raise (ValidationError
               (errors_of "student_id" sid ++ errors_of "date" dt
                ++ errors_of "status" st ++ errors_of "remarks" rm))
  end.
End Validate.
End Attendance.

(** [Union[BaseModel, dict]]: a schema instance ... *)
Inductive model :=
| MStudent (s : Student.t)
| MMarksheet (m : Marksheet.t)
| MAdmitCard (c : AdmitCard.t)
| MAttendance (a : Attendance.t).

Definition model_dump (m : model) : pydict :=
  match m with
  | MStudent s => Student.model_dump s
  | MMarksheet m => Marksheet.model_dump m
  | MAdmitCard c => AdmitCard.model_dump c
  | MAttendance a => Attendance.model_dump a
  end.

(** ... or a reference to a plain dictionary owned by the caller. *)
Inductive data_arg :=
| DModel (m : model)
| DDict (ref : nat).

(** ** The document store behind the driver *)

(** A stored document: the store keeps an [_id] for every document. *)
Record document := { doc_id : value; doc_fields : pydict }.

(** The dictionary the driver hands out for a stored document. *)
Definition to_dict (d : document) : pydict := <["_id" := doc_id d]> (doc_fields d).

Record database := {
  collections : gmap string (list document);
  next_oid : N;                 (* source of fresh identifiers *)
  fault : option string }.      (* a pending driver error, if any *)

Definition coll (d : database) (c : string) : list document :=
  default [] (collections d !! c).

(** An equality-conjunction filter holds of a dictionary when every field it
    names is present with an equal value. *)
Definition matches (q d : pydict) : bool :=
  forallb (fun kv : string * value =>
             match d !! kv.1 with
             | Some v => value_eqb kv.2 v
             | None => false
             end) (map_to_list q).

Definition drv_find_one (c : string) (q : pydict) (d : database)
  : result (option pydict) :=
  match fault d with
  | Some msg => Raise (Exception msg)
  | None => Ok (to_dict <$> List.find (fun x => matches q (to_dict x)) (coll d c))
  end.

Definition drv_find (c : string) (q : pydict) (d : database)
  : result (list pydict) :=
  match fault d with
  | Some msg => Raise (Exception msg)
  | None => Ok (map to_dict (List.filter (fun x => matches q (to_dict x)) (coll d c)))
  end.

Definition append_doc (c : string) (x : document) (d : database) (n : N)
  : database :=
  {| collections := <[c := (coll d c ++ [x])%list]> (collections d);
     next_oid := n; fault := fault d |}.

(** [insert_one]: a document without [_id] receives a fresh identifier, which
    the driver also writes into the dictionary it was given.  Returns the
    identifier and that dictionary. *)
Definition drv_insert_one (c : string) (doc : pydict) (d : database)
  : result (value * pydict) * database :=
  match fault d with
  | Some msg => (Raise (Exception msg), d)
  | None =>
      match doc !! "_id" with
      | Some id =>
          if existsb (fun x => value_eqb id (doc_id x)) (coll d c)
          then (Raise (Exception "E11000 duplicate key error"), d)
          else (Ok (id, doc),
                append_doc c {| doc_id := id; doc_fields := delete "_id" doc |}
                           d (next_oid d))
      | None =>
          let id := VObjectId (next_oid d) in
          (Ok (id, <["_id" := id]> doc),
           append_doc c {| doc_id := id; doc_fields := doc |} d (next_oid d + 1)%N)
      end
  end.

Definition drv_list_collection_names (d : database) : result (list string) :=
  match fault d with
  | Some msg => Raise (Exception msg)
  | None => Ok (map_to_list (collections d)).*1
  end.

(** ** Process state and the handler monad *)

Record world := {
  db : option database;            (* [database.db]: the store handle *)
  imported : bool;                 (* did [from database import ...] succeed *)
  environ : gmap string string;    (* [os.environ] *)
  heap : list pydict;              (* dictionaries callers hold references to *)
  utc_clock : nat -> Z;            (* successive readings of the UTC clock *)
  clock_reads : nat }.             (* readings taken so far *)

Definition set_db (o : option database) (w : world) : world :=
  {| db := o; imported := imported w; environ := environ w; heap := heap w;
     utc_clock := utc_clock w; clock_reads := clock_reads w |}.
Definition set_heap (h : list pydict) (w : world) : world :=
  {| db := db w; imported := imported w; environ := environ w; heap := h;
     utc_clock := utc_clock w; clock_reads := clock_reads w |}.
Definition tick (w : world) : world :=
  {| db := db w; imported := imported w; environ := environ w; heap := heap w;
     utc_clock := utc_clock w; clock_reads := S (clock_reads w) |}.

(** The name [db] as [main.py] sees it: [None] when the import failed. *)
Definition main_db (w : world) : option database :=
  if imported w then db w else None.

Definition M (A : Type) : Type := world -> result A * world.

Definition ret {A} (a : A) : M A := fun w => (Ok a, w).
Definition raise {A} (e : exn) : M A := fun w => (Raise e, w).
Definition bind {A B} (c : M A) (k : A -> M B) : M B :=
  fun w => match c w with
           | (Ok a, w') => k a w'
           | (Raise e, w') => (Raise e, w')
           end.
Definition lift {A} (r : result A) : M A := fun w => (r, w).

(** [try: c except Exception: h]. *)
Definition try_except {A} (c : M A) (h : exn -> M A) : M A :=
  fun w => match c w with
           | (Ok a, w') => (Ok a, w')
           | (Raise e, w') => h e w'
           end.

Notation "'do' x <- c ; k" := (bind c (fun x => k))
  (at level 10, x name, c at level 100, k at level 200).
Notation "c ;; k" := (bind c (fun _ => k))
  (at level 100, k at level 200, right associativity).

(** [datetime.now(timezone.utc)]. *)
Definition now : M Z :=
  fun w => (Ok (utc_clock w (clock_reads w)), tick w).

(** A new dictionary object; its reference is returned. *)
Definition alloc (d : pydict) : M nat :=
  fun w => (Ok (length (heap w)), set_heap (heap w ++ [d])%list w).

Definition deref (l : nat) : M pydict :=
  fun w => match heap w !! l with
           | Some d => (Ok d, w)
           | None => (Raise (TypeError "dangling reference"), w)
           end.

(** [d[key] = v] on the dictionary behind a reference. *)
Definition setitem (l : nat) (key : string) (v : value) : M unit :=
  fun w => match heap w !! l with
           | Some d => (Ok (), set_heap (<[l := <[key := v]> d]> (heap w)) w)
           | None => (Raise (TypeError "dangling reference"), w)
           end.

(** A read-only driver call on a store handle. *)
Definition on_handle {A} (h : option database) (f : database -> result A) : M A :=
  match h with
  | Some d => lift (f d)
  | None => raise (TypeError "'NoneType' object is not subscriptable")
  end.

(** [db[c].insert_one(doc)] for the dictionary behind [l]. *)
Definition insert_one (c : string) (l : nat) : M value :=
  do doc <- deref l;
  fun w =>
    match db w with
    | None => (Raise (TypeError "'NoneType' object is not subscriptable"), w)
    | Some d =>
        match drv_insert_one c doc d with
        | (Ok (id, doc'), d') =>
            (Ok id, set_db (Some d') (set_heap (<[l := doc']> (heap w)) w))
        | (Raise e, d') => (Raise e, set_db (Some d') w)
        end
    end.

(** ** database.py and main.py *)

Definition db_unavailable : string :=
  "Database not available. Check DATABASE_URL and DATABASE_NAME environment variables.".

Definition db_not_configured : string :=
  "Database not configured. Set DATABASE_URL and DATABASE_NAME.".

(** The letter grade of a percentage ([create_marksheet], the conditional
    expression bound to [grade]). *)
Definition letter_grade (percentage : Q) : string :=
  if Qle_bool 90 percentage then "A+"
  else if Qle_bool 80 percentage then "A"
  else if Qle_bool 70 percentage then "B"
  else if Qle_bool 60 percentage then "C"
  else if Qle_bool 50 percentage then "D"
  else "E".

(** The body of [if sheet.subjects: ...] in [create_marksheet], together with
    its guard: the sheet as it is handed to [create_document]. *)
Definition grade_sheet (sheet : Marksheet.t) : result Marksheet.t :=
  match Marksheet.subjects sheet with
  | [] => Ok sheet
  | _ :: _ =>
      let total_obt := pysum (map SubjectMark.marks (Marksheet.subjects sheet)) in
      let total_max := pysum (map SubjectMark.max_marks (Marksheet.subjects sheet)) in
      match (if Qlt_bool 0 total_max
             then match truediv total_obt total_max with
                  | Ok q => Ok (q * 100)%Q
                  | Raise e => Raise e
                  end
             else Ok 0%Q) with
      | Raise e => Raise e
      | Ok percentage =>
          let grade := letter_grade percentage in
          Ok (Marksheet.set_grade grade
                (Marksheet.set_percentage (round2 percentage)
                   (Marksheet.set_total_max total_max
                      (Marksheet.set_total_obtained total_obt sheet))))
      end
  end.

(** [d["id"] = str(d.pop("_id"))]. *)
Definition pop_id (py_str : value -> string) (d : pydict) : result pydict :=
  match d !! "_id" with
  | Some v => Ok (<["id" := VStr (py_str v)]> (delete "_id" d))
  | None => Raise (KeyError "_id")
  end.

(** [for d in docs: d["id"] = str(d.pop("_id"))]. *)
Fixpoint pop_ids (py_str : value -> string) (docs : list pydict)
  : result (list pydict) :=
  match docs with
  | [] => Ok []
  | d :: rest =>
      match pop_id py_str d with
      | Raise e => Raise e
      | Ok d' =>
          match pop_ids py_str rest with
          | Raise e => Raise e
          | Ok rest' => Ok (d' :: rest')
          end
      end
  end.

(** [query[key] = param] under [if param:]. *)
Definition add_filter (key : string) (param : option string) (q : pydict) : pydict :=
  match param with
  | Some s => if str_truthy s then <[key := VStr s]> q else q
  | None => q
  end.

Section Backend.
(** Python's [str] on values, and the [bson.ObjectId] constructor (which
    raises on a malformed identifier): library functions. *)
Variable py_str : value -> string.
Variable ObjectId : string -> result N.

(** *** database.py *)

Definition create_document (collection_name : string) (data : data_arg) : M string :=
  fun w =>
    match db w with
    | None => (Raise (Exception db_unavailable), w)
    | Some _ =>
        (do data_dict <- match data with
                         | DModel m => alloc (model_dump m)
                         | DDict l => do d <- deref l; alloc d
                         end;
         do t1 <- now;
         setitem data_dict "created_at" (VDateTime t1);;
         do t2 <- now;
         setitem data_dict "updated_at" (VDateTime t2);;
         do inserted_id <- insert_one collection_name data_dict;
         ret (py_str inserted_id)) w
    end.

Definition get_documents (collection_name : string)
    (filter_dict : option pydict) (limit : option Z) : M (list pydict) :=
  fun w =>
    match db w with
    | None => (Raise (Exception db_unavailable), w)
    | Some d =>
        (do cursor <- lift (drv_find collection_name (default ∅ filter_dict) d);
         ret match limit with
             | Some n => if n =? 0 then cursor else take (Z.abs_nat n) cursor
             | None => cursor
             end) w
    end.

(** *** main.py *)

Definition read_root : M pydict :=
  ret {[ "message" := VStr "School Helper Backend running" ]}.

Definition getenv (k : string) : M (option string) :=
  fun w => (Ok (environ w !! k), w).

Definition opt_str_truthy (o : option string) : bool :=
  match o with Some s => str_truthy s | None => false end.

Definition exn_str (e : exn) : string :=
  match e with
  | Exception msg | TypeError msg => msg
  | KeyError k => k
  | HTTPException _ detail => detail
  | ValidationError _ => "validation error"
  | ZeroDivisionError => "float division by zero"
  end.

(** The outer [try] of [test_database] guards statements that do not raise
    here; the inner one guards the driver call. *)
Definition test_database : M pydict :=
  do url <- getenv "DATABASE_URL";
  do name <- getenv "DATABASE_NAME";
  let response : pydict :=
    list_to_map
      [("backend", VStr "✅ Running");
       ("database", VStr "❌ Not Available");
       ("database_url", VStr (if opt_str_truthy url then "✅ Set" else "❌ Not Set"));
       ("database_name",
         VStr (match name with
               | Some s => if str_truthy s then s else "❌ Not Set"
               | None => "❌ Not Set"
               end));
       ("connection_status", VStr "Not Connected");
       ("collections", VList [])] in
  fun w =>
    match main_db w with
    | Some d =>
        let response := <["database" := VStr "✅ Available"]> response in
        let response := <["connection_status" := VStr "Connected"]> response in
        match drv_list_collection_names d with
        | Ok collections =>
            let response :=
              <["collections" := VList (map VStr (take 10 collections))]> response in
            (Ok (<["database" := VStr "✅ Connected & Working"]> response), w)
        | Raise e =>
            (Ok (<["database" :=
                     VStr ("⚠️  Connected but Error: " +:+ String.substring 0 50 (exn_str e))]>
                   response), w)
        end
    | None => (Ok (<["database" := VStr "❌ Not Available"]> response), w)
    end.

Definition ensure_db_available : M unit :=
  fun w =>
    (* db is None or create_document is None or get_documents is None *)
    if is_None (main_db w) || negb (imported w) || negb (imported w)
    then (Raise (HTTPException 503 db_not_configured), w)
    else (Ok (), w).

(** **** Students *)

Definition create_student (student : Student.t) : M pydict :=
  ensure_db_available;;
  do exists_ <- (fun w =>
                   match main_db w with          (* ... if db else None *)
                   | Some d =>
                       lift (drv_find_one "student"
                               {[ "roll_no" := VStr (Student.roll_no student) ]} d) w
                   | None => (Ok None, w)
                   end);
  if match exists_ with Some doc => dict_truthy doc | None => false end
  then raise (HTTPException 409 "Roll number already exists")
  else
    do new_id <- create_document "student" (DModel (MStudent student));
    ret {[ "id" := VStr new_id ]}.

Definition list_students (class_name section : option string) : M (list pydict) :=
  ensure_db_available;;
  let query := add_filter "section" section (add_filter "class_name" class_name ∅) in
  do docs <- get_documents "student" (Some query) None;
  lift (pop_ids py_str docs).

Definition get_student (student_id : string) : M pydict :=
  ensure_db_available;;
  do doc <- try_except
              (do oid <- lift (ObjectId student_id);
               fun w => on_handle (main_db w)
                          (drv_find_one "student" {[ "_id" := VObjectId oid ]}) w)
              (fun _ w => on_handle (main_db w)
                            (drv_find_one "student" {[ "id" := VStr student_id ]}) w);
  match doc with
  | Some doc =>
      if dict_truthy doc then
        match doc !! "_id" with
        | Some v => ret (<["id" := VStr (py_str v)]> (delete "_id" doc))
        | None => ret doc
        end
      else raise (HTTPException 404 "Student not found")
  | None => raise (HTTPException 404 "Student not found")
  end.

(** **** Marksheet *)

Definition create_marksheet (sheet : Marksheet.t) : M pydict :=
  ensure_db_available;;
  do sheet <- lift (grade_sheet sheet);
  do new_id <- create_document "marksheet" (DModel (MMarksheet sheet));
  ret {[ "id" := VStr new_id ]}.

Definition list_marksheets (student_id exam_name : option string) : M (list pydict) :=
  ensure_db_available;;
  let q := add_filter "exam_name" exam_name (add_filter "student_id" student_id ∅) in
  do docs <- get_documents "marksheet" (Some q) None;
  lift (pop_ids py_str docs).

(** **** Admit cards *)

Definition create_admit_card (card : AdmitCard.t) : M pydict :=
  ensure_db_available;;
  do new_id <- create_document "admitcard" (DModel (MAdmitCard card));
  ret {[ "id" := VStr new_id ]}.

Definition list_admit_cards (student_id exam_name : option string) : M (list pydict) :=
  ensure_db_available;;
  let q := add_filter "exam_name" exam_name (add_filter "student_id" student_id ∅) in
  do docs <- get_documents "admitcard" (Some q) None;
  lift (pop_ids py_str docs).

(** **** Attendance *)

Definition mark_attendance (record : Attendance.t) : M pydict :=
  ensure_db_available;;
  do new_id <- create_document "attendance" (DModel (MAttendance record));
  ret {[ "id" := VStr new_id ]}.

Definition list_attendance (student_id date status : option string) : M (list pydict) :=
  ensure_db_available;;
  let q := add_filter "status" status
             (add_filter "date" date (add_filter "student_id" student_id ∅)) in
  do docs <- get_documents "attendance" (Some q) None;
  lift (pop_ids py_str docs).

(** [POST /attendance] as the framework serves it: the body is validated
    against the handler's parameter type, and the handler runs only on a
    validated model; a validation failure is answered without running it. *)
Definition POST_attendance (validate_date : option json -> pydate + string)
    (body : gmap string json) : M pydict :=
  do record <- lift (Attendance.model_validate validate_date body);
  mark_attendance record.
End Backend.

(** ** A concrete library instance, to run the handlers on examples *)

Definition demo_str (v : value) : string :=
  match v with
  | VStr s => s
  | VObjectId o => "oid-" +:+ pretty o
  | _ => "?"
  end.

Definition demo_ObjectId (s : string) : result N :=
  Raise (Exception "InvalidId").

Definition demo_validate_date (o : option json) : pydate + string :=
  match o with
  | Some (JStr "2024-01-15") => inl (Date 2024 1 15)
  | None => inr "missing"
  | Some _ => inr "date_from_datetime_parsing"
  end.

Definition empty_database : database :=
  {| collections := ∅; next_oid := 0; fault := None |}.

(** A configured process whose clock advances by one microsecond per reading. *)
Definition demo_world (d : database) : world :=
  {| db := Some d; imported := true; environ := ∅; heap := [];
     utc_clock := fun n => 1700000000000000 + Z.of_nat n; clock_reads := 0 |}.

(** The document most recently inserted into a collection. *)
Definition last_stored (c : string) (w : world) : option document :=
  match db w with
  | Some d => last (coll d c)
  | None => None
  end.

(** The record [create_document] copies: the dump of a model, or the
    dictionary behind the reference. *)
Definition record_of (data : data_arg) (w : world) : option pydict :=
  match data with
  | DModel m => Some (model_dump m)
  | DDict l => heap w !! l
  end.

Definition stamped (rec : pydict) (w : world) : pydict :=
  <["updated_at" := VDateTime (utc_clock w (S (clock_reads w)))]>
    (<["created_at" := VDateTime (utc_clock w (clock_reads w))]> rec).

(** The state a successful [create_document] leaves behind. *)
Definition created (c : string) (rec : pydict) (d : database) (w : world) : world :=
  let id := VObjectId (next_oid d) in
  set_db (Some (append_doc c {| doc_id := id; doc_fields := stamped rec w |}
                  d (next_oid d + 1)%N))
    (set_heap (heap w ++ [<["_id" := id]> (stamped rec w)])%list (tick (tick w))).

(** The public form of a stored document: [_id] renamed to [id]. *)
Definition public_doc (py_str : value -> string) (x : document) : pydict :=
  <["id" := VStr (py_str (doc_id x))]> (delete "_id" (to_dict x)).

(** The band table in the words of the specification: half-open bands, a
    boundary value belonging to the higher band. *)
Definition grade_band (p : Q) (g : string) : Prop :=
  ((90 <= p /\ g = "A+") \/ (80 <= p < 90 /\ g = "A") \/ (70 <= p < 80 /\ g = "B")
   \/ (60 <= p < 70 /\ g = "C") \/ (50 <= p < 60 /\ g = "D") \/ (p < 50 /\ g = "E"))%Q.

(** [total_obt] and [total_max] of a sheet's subjects. *)
Definition totals (sheet : Marksheet.t) : Q * Q :=
  (pysum (map SubjectMark.marks (Marksheet.subjects sheet)),
   pysum (map SubjectMark.max_marks (Marksheet.subjects sheet))).

(** The percentage before rounding, as [create_marksheet] computes it from a
    non-empty subjects list. *)
Definition server_percentage (sheet : Marksheet.t) : Q :=
  if Qlt_bool 0 (totals sheet).2
  then ((totals sheet).1 / (totals sheet).2 * 100)%Q
  else 0%Q.

(** A field of the document most recently inserted into a collection. *)
Definition stored_field (c key : string) (w : world) : option value :=
  match last_stored c w with
  | Some x => doc_fields x !! key
  | None => None
  end.

(** A filter parameter, as the specification reads it: when it is supplied
    (and not the empty string) the document's field equals it; otherwise the
    document is unconstrained. *)
Definition param_holds (key : string) (param : option string) (x : document) : Prop :=
  forall s, param = Some s -> s <> "" -> to_dict x !! key = Some (VStr s).

(** Example requests. *)
Definition sheet_of (subjects : list SubjectMark.t) (percentage : option Q)
    (remarks : option string) : Marksheet.t :=
  {| Marksheet.student_id := "s1"; Marksheet.exam_name := "Half-Yearly";
     Marksheet.class_name := "10"; Marksheet.year := 2024;
     Marksheet.subjects := subjects;
     Marksheet.total_obtained := None; Marksheet.total_max := None;
     Marksheet.percentage := percentage; Marksheet.grade := None;
     Marksheet.remarks := remarks |}.

Definition student_of (full_name roll_no class_name : string)
    (section : option string) : Student.t :=
  {| Student.full_name := full_name; Student.roll_no := roll_no;
     Student.class_name := class_name; Student.section := section;
     Student.dob := None; Student.guardian_name := None;
     Student.contact := None; Student.address := None |}.

(** A store holding two students, of sections "A" and "B". *)
Definition two_students : database :=
  {| collections :=
       {[ "student" :=
            [ {| doc_id := VObjectId 0;
                 doc_fields := Student.model_dump (student_of "Asha" "1" "5" (Some "A")) |};
              {| doc_id := VObjectId 1;
                 doc_fields := Student.model_dump (student_of "Ravi" "2" "5" (Some "B")) |} ] ]};
     next_oid := 2; fault := None |}.

(** A process without store handle. *)
Definition unconfigured_world : world :=
  {| db := None; imported := true; environ := ∅; heap := [];
     utc_clock := fun n => Z.of_nat n; clock_reads := 0 |}.

Definition subject (name : string) (marks max_marks : Q) : SubjectMark.t :=
  {| SubjectMark.name := name; SubjectMark.marks := marks;
     SubjectMark.max_marks := max_marks |}.

(** ** Further definitions for the properties below *)

(** Module initialisation of [database.py]: the handle [db] is set only when
    the driver is importable, both environment variables are set and not
    empty, and neither the client constructor nor the selection of the
    database raises. *)
Definition init_db
    (MongoClient : option (string -> result (string -> result database)))
    (environ : gmap string string) : option database :=
  match MongoClient with
  | None => None
  | Some client_of =>
      if opt_str_truthy (environ !! "DATABASE_URL")
         && opt_str_truthy (environ !! "DATABASE_NAME")
      then match client_of (default "" (environ !! "DATABASE_URL")) with
           | Ok client =>
               match client (default "" (environ !! "DATABASE_NAME")) with
               | Ok d => Some d
               | Raise _ => None
               end
           | Raise _ => None
           end
      else None
  end.

(** The process state once both modules are imported.  Every fallible
    statement at the top of [database.py] sits in a [try], so the import in
    [main.py] succeeds. *)
Definition startup
    (MongoClient : option (string -> result (string -> result database)))
    (env : gmap string string) (clock : nat -> Z) : world :=
  {| db := init_db MongoClient env; imported := true; environ := env;
     heap := []; utc_clock := clock; clock_reads := 0 |}.

(** The roll numbers held by the student collection. *)
Definition roll_nos (l : list document) : list value :=
  omap (fun x => doc_fields x !! "roll_no") l.

Definition unique_roll_nos (w : world) : Prop :=
  match db w with
  | Some d => NoDup (roll_nos (coll d "student"))
  | None => True
  end.

(** The letters in ascending order of merit. *)
Definition grade_rank (g : string) : nat :=
  if String.eqb g "A+" then 5
  else if String.eqb g "A" then 4
  else if String.eqb g "B" then 3
  else if String.eqb g "C" then 2
  else if String.eqb g "D" then 1
  else 0.

(** A computation that leaves the process state as it found it, whatever
    its outcome. *)
Definition read_only {A} (c : M A) : Prop := forall w, (c w).2 = w.

(** Further example data. *)

(** A reader of identifiers that understands the string of identifier 0. *)
Definition demo_parse_oid (s : string) : result N :=
  if String.eqb s (demo_str (VObjectId 0)) then Ok 0%N
  else Raise (Exception "InvalidId").

(** A store whose driver raises. *)
Definition unreachable_database : database :=
  {| collections := ∅; next_oid := 0; fault := Some "connection refused" |}.

(** A store with one student document that carries a plain [id] field. *)
Definition plain_id_students : database :=
  {| collections :=
       {[ "student" :=
            [ {| doc_id := VObjectId 7;
                 doc_fields := <["id" := VStr "legacy-1"]>
                                 (Student.model_dump (student_of "Asha" "1" "5" None)) |} ] ]};
     next_oid := 8; fault := None |}.


(** ** Properties *)

Section Facts.
Variable py_str : value -> string.

(** *** Running the monad *)

Lemma ensure_db_available_ok w d :
  imported w = true -> db w = Some d ->
  ensure_db_available w = (Ok (), w).
Proof.
  intros Hi Hd. unfold ensure_db_available, main_db. by rewrite Hi, Hd.
Qed.

Lemma ensure_db_available_unconfigured w :
  db w = None ->
  ensure_db_available w = (Raise (HTTPException 503 db_not_configured), w).
Proof.
  intros Hd. unfold ensure_db_available, main_db. rewrite Hd.
  by destruct (imported w).
Qed.

Lemma bind_ok {A B} (c : M A) (k : A -> M B) w a w' :
  c w = (Ok a, w') -> bind c k w = k a w'.
Proof. intros H. unfold bind. by rewrite H. Qed.

Lemma bind_raise {A B} (c : M A) (k : A -> M B) w e w' :
  c w = (Raise e, w') -> bind c k w = (Raise e, w').
Proof. intros H. unfold bind. by rewrite H. Qed.

(** *** The access layer on the heap *)

Lemma heap_top_lookup (h : list pydict) x : (h ++ [x])%list !! length h = Some x.
Proof. by apply list_lookup_middle. Qed.

Lemma heap_top_insert (h : list pydict) x y :
  <[length h := y]> (h ++ [x])%list = (h ++ [y])%list.
Proof.
  rewrite insert_app_r_alt by lia. by rewrite Nat.sub_diag.
Qed.

Lemma setitem_top h x w key v :
  heap w = (h ++ [x])%list ->
  setitem (length h) key v w = (Ok (), set_heap (h ++ [<[key := v]> x])%list w).
Proof.
  intros Hh. unfold setitem. rewrite Hh, heap_top_lookup.
  by rewrite heap_top_insert.
Qed.

Lemma insert_one_top c h x w d :
  heap w = (h ++ [x])%list -> db w = Some d -> fault d = None ->
  x !! "_id" = None ->
  insert_one c (length h) w
  = (Ok (VObjectId (next_oid d)),
     set_db (Some (append_doc c {| doc_id := VObjectId (next_oid d);
                                   doc_fields := x |} d (next_oid d + 1)%N))
       (set_heap (h ++ [<["_id" := VObjectId (next_oid d)]> x])%list w)).
Proof.
  intros Hh Hd Hf Hid. unfold insert_one.
  erewrite bind_ok; last by (unfold deref; rewrite Hh, heap_top_lookup).
  rewrite Hd. unfold drv_insert_one. rewrite Hf, Hid, Hh.
  by rewrite heap_top_insert.
Qed.

Lemma create_document_run c data w d rec :
  db w = Some d -> fault d = None ->
  record_of data w = Some rec -> rec !! "_id" = None ->
  create_document py_str c data w
  = (Ok (py_str (VObjectId (next_oid d))), created c rec d w).
Proof.
  intros Hd Hf Hrec Hid. unfold create_document. rewrite Hd.
  erewrite bind_ok; last first.
  { instantiate (1 := set_heap (heap w ++ [rec])%list w).
    instantiate (1 := length (heap w)).
    destruct data as [m|l]; simpl in Hrec.
    - by inversion Hrec.
    - unfold bind, deref. by rewrite Hrec. }
  erewrite bind_ok; last reflexivity.
  erewrite bind_ok; last by apply setitem_top.
  erewrite bind_ok; last reflexivity.
  erewrite bind_ok; last by apply setitem_top.
  erewrite bind_ok; last first.
  { apply insert_one_top; [reflexivity | exact Hd | exact Hf |].
    rewrite !lookup_insert_ne by done. exact Hid. }
  reflexivity.
Qed.

(** *** Grading *)

Lemma Qlt_bool_iff x y : Qlt_bool x y = true <-> (x < y)%Q.
Proof.
  unfold Qlt_bool. rewrite negb_true_iff, <- not_true_iff_false, Qle_bool_iff.
  split; [apply Qnot_le_lt | apply Qlt_not_le].
Qed.

Lemma Qle_bool_false x y : Qle_bool x y = false <-> (y < x)%Q.
Proof.
  rewrite <- not_true_iff_false, Qle_bool_iff.
  split; [apply Qnot_le_lt | apply Qlt_not_le].
Qed.

#[local] Instance Qlt_bool_comp : Proper (Qeq ==> Qeq ==> eq) Qlt_bool.
Proof. intros x x' Hx y y' Hy. unfold Qlt_bool. by rewrite Hx, Hy. Qed.

#[local] Instance round_half_even_comp : Proper (Qeq ==> eq) round_half_even.
Proof.
  intros x y Hxy. unfold round_half_even.
  rewrite (Qfloor_comp _ _ Hxy).
  assert (Hr : (x - inject_Z (Qfloor y) == y - inject_Z (Qfloor y))%Q)
    by (by rewrite Hxy).
  rewrite (Qlt_bool_comp _ _ Hr _ _ (Qeq_refl _)).
  by rewrite (Qlt_bool_comp _ _ (Qeq_refl _) _ _ Hr).
Qed.

#[local] Instance round2_comp : Proper (Qeq ==> eq) round2.
Proof.
  intros x y Hxy. unfold round2.
  assert (H : (x * 100 == y * 100)%Q) by (by rewrite Hxy).
  by rewrite (round_half_even_comp _ _ H).
Qed.

#[local] Instance letter_grade_comp : Proper (Qeq ==> eq) letter_grade.
Proof.
  intros x y Hxy. unfold letter_grade.
  by rewrite !(Qleb_comp _ _ (Qeq_refl _) _ _ Hxy).
Qed.

(** The code's conditional chain realises the band table. *)
Lemma letter_grade_band p : grade_band p (letter_grade p).
Proof.
  unfold grade_band, letter_grade.
  destruct (Qle_bool 90 p) eqn:H90; [left; split; [by apply Qle_bool_iff | done] |].
  apply Qle_bool_false in H90. right.
  destruct (Qle_bool 80 p) eqn:H80; [left; repeat split; [by apply Qle_bool_iff | done] |].
  apply Qle_bool_false in H80. right.
  destruct (Qle_bool 70 p) eqn:H70; [left; repeat split; [by apply Qle_bool_iff | done] |].
  apply Qle_bool_false in H70. right.
  destruct (Qle_bool 60 p) eqn:H60; [left; repeat split; [by apply Qle_bool_iff | done] |].
  apply Qle_bool_false in H60. right.
  destruct (Qle_bool 50 p) eqn:H50; [left; repeat split; [by apply Qle_bool_iff | done] |].
  apply Qle_bool_false in H50. by right.
Qed.

(** The bands do not overlap: a percentage has one letter. *)
Lemma grade_band_unique p g g' : grade_band p g -> grade_band p g' -> g = g'.
Proof.
  unfold grade_band.
  intros H H'.
  repeat match goal with
         | H : _ \/ _ |- _ => destruct H
         | H : _ /\ _ |- _ => destruct H
         end; subst; try reflexivity; exfalso;
    repeat match goal with
           | H1 : (?a <= p)%Q, H2 : (p < ?b)%Q |- _ =>
               let H := fresh in
               assert (H : (a < b)%Q) by (eapply Qle_lt_trans; eassumption);
               clear H1; vm_compute in H; discriminate H
           end.
Qed.

Lemma grade_sheet_nonempty sheet :
  Marksheet.subjects sheet <> [] ->
  (0 < (totals sheet).2)%Q ->
  let p := (100 * (totals sheet).1 / (totals sheet).2)%Q in
  grade_sheet sheet
  = Ok (Marksheet.set_grade (letter_grade p)
          (Marksheet.set_percentage (round2 p)
             (Marksheet.set_total_max (totals sheet).2
                (Marksheet.set_total_obtained (totals sheet).1 sheet)))).
Proof.
  intros Hne Hpos p. unfold grade_sheet, totals in *. simpl in *.
  destruct (Marksheet.subjects sheet) as [|s0 rest] eqn:Hs; [done |].
  rewrite (proj2 (Qlt_bool_iff _ _) Hpos).
  unfold truediv.
  destruct (Qeq_bool _ 0) eqn:Hz.
  { apply Qeq_bool_iff in Hz. rewrite Hz in Hpos. by vm_compute in Hpos. }
  assert (Hp : (pysum (map SubjectMark.marks (s0 :: rest))
                / pysum (map SubjectMark.max_marks (s0 :: rest)) * 100 == p)%Q).
  { unfold p. unfold Qdiv. ring. }
  by rewrite (letter_grade_comp _ _ Hp), (round2_comp _ _ Hp).
Qed.

(** *** What a creation leaves in the store *)

Lemma last_stored_created c rec d w :
  last_stored c (created c rec d w)
  = Some {| doc_id := VObjectId (next_oid d); doc_fields := stamped rec w |}.
Proof.
  unfold last_stored, created, coll, append_doc. simpl.
  rewrite lookup_insert_eq. simpl. apply last_snoc.
Qed.

Lemma stamped_lookup_ne rec w k :
  k <> "created_at" -> k <> "updated_at" -> stamped rec w !! k = rec !! k.
Proof. intros H1 H2. unfold stamped. by rewrite !lookup_insert_ne. Qed.

Lemma stored_field_created c rec d w k :
  k <> "created_at" -> k <> "updated_at" ->
  stored_field c k (created c rec d w) = rec !! k.
Proof.
  intros H1 H2. unfold stored_field. rewrite last_stored_created. simpl.
  by apply stamped_lookup_ne.
Qed.

Lemma model_dump_no_id m : model_dump m !! "_id" = None.
Proof. destruct m; reflexivity. Qed.

Lemma create_marksheet_run sheet sheet' w d :
  imported w = true -> db w = Some d -> fault d = None ->
  grade_sheet sheet = Ok sheet' ->
  create_marksheet py_str sheet w
  = (Ok {[ "id" := VStr (py_str (VObjectId (next_oid d))) ]},
     created "marksheet" (Marksheet.model_dump sheet') d w).
Proof.
  intros Hi Hd Hf Hg. unfold create_marksheet.
  erewrite bind_ok; last by eapply ensure_db_available_ok.
  erewrite bind_ok; last by (unfold lift; rewrite Hg).
  erewrite bind_ok; last first.
  { eapply create_document_run; eauto using model_dump_no_id. }
  reflexivity.
Qed.


Lemma grade_sheet_graded sheet :
  Marksheet.subjects sheet <> [] ->
  grade_sheet sheet
  = Ok (Marksheet.set_grade (letter_grade (server_percentage sheet))
          (Marksheet.set_percentage (round2 (server_percentage sheet))
             (Marksheet.set_total_max (totals sheet).2
                (Marksheet.set_total_obtained (totals sheet).1 sheet)))).
Proof.
  intros Hne. unfold grade_sheet, server_percentage, totals. simpl.
  destruct (Marksheet.subjects sheet) as [|s0 rest] eqn:Hs; [done |].
  destruct (Qlt_bool 0 _) eqn:Hpos; [| done].
  unfold truediv. destruct (Qeq_bool _ 0) eqn:Hz; [| done].
  apply Qlt_bool_iff in Hpos. apply Qeq_bool_iff in Hz.
  rewrite Hz in Hpos. by vm_compute in Hpos.
Qed.

Lemma grade_sheet_empty sheet :
  Marksheet.subjects sheet = [] -> grade_sheet sheet = Ok sheet.
Proof. intros Hs. unfold grade_sheet. by rewrite Hs. Qed.


(** C3 (as amended): with an empty subjects list grading is skipped.  No
    total and no percentage is computed, no division takes place, the
    creation succeeds, and the stored total_obtained, total_max, percentage
    and grade are the caller's (null when omitted). *)
Theorem create_marksheet_empty_subjects sheet w d :
  imported w = true -> db w = Some d -> fault d = None ->
  Marksheet.subjects sheet = [] ->
  grade_sheet sheet = Ok sheet
  /\ exists id w',
      create_marksheet py_str sheet w = (Ok {[ "id" := VStr id ]}, w')
      /\ stored_field "marksheet" "total_obtained" w'
         = Some (opt_float (Marksheet.total_obtained sheet))
      /\ stored_field "marksheet" "total_max" w'
         = Some (opt_float (Marksheet.total_max sheet))
      /\ stored_field "marksheet" "percentage" w'
         = Some (opt_float (Marksheet.percentage sheet))
      /\ stored_field "marksheet" "grade" w'
         = Some (opt_str (Marksheet.grade sheet)).
Proof.
  intros Hi Hd Hf Hs. split; [by apply grade_sheet_empty |].
  eexists _, _. split.
  { eapply create_marksheet_run; eauto. by apply grade_sheet_empty. }
  rewrite !stored_field_created by done. by repeat split.
Qed.

(** *** Equality filters *)

Lemma dict_truthy_insert k v (m : pydict) : dict_truthy (<[k := v]> m) = true.
Proof.
  unfold dict_truthy. destruct (map_to_list _) eqn:Hl; [| done].
  apply map_to_list_empty_iff in Hl. by apply insert_non_empty in Hl.
Qed.

Lemma value_eqb_str s v : value_eqb (VStr s) v = true <-> v = VStr s.
Proof.
  destruct v; simpl; try (split; [discriminate | discriminate]).
  rewrite String.eqb_eq. split; [by intros -> | by intros [= ->]].
Qed.

Lemma matches_spec (q dct : pydict) :
  matches q dct = true
  <-> forall k v, q !! k = Some v ->
                  exists v', dct !! k = Some v' /\ value_eqb v v' = true.
Proof.
  unfold matches. rewrite forallb_forall. split.
  - intros H k v Hkv.
    specialize (H (k, v)). simpl in H.
    destruct (dct !! k) as [v'|] eqn:Hd.
    + exists v'. split; [done |]. apply H.
      apply list_elem_of_In. by apply elem_of_map_to_list.
    + exfalso. assert (false = true); [| done]. apply H.
      apply list_elem_of_In. by apply elem_of_map_to_list.
  - intros H [k v] Hin. simpl.
    apply list_elem_of_In, elem_of_map_to_list in Hin.
    destruct (H k v Hin) as (v' & -> & Hv). done.
Qed.

Lemma matches_empty dct : matches ∅ dct = true.
Proof. unfold matches. by rewrite map_to_list_empty. Qed.

Lemma to_dict_lookup_ne x k : k <> "_id" -> to_dict x !! k = doc_fields x !! k.
Proof. intros H. unfold to_dict. by rewrite lookup_insert_ne. Qed.

Lemma str_truthy_nonempty s : str_truthy s = true <-> s <> "".
Proof. destruct s; simpl; split; done. Qed.

Lemma matches_add_filter k p (q : pydict) x :
  q !! k = None ->
  matches (add_filter k p q) (to_dict x) = true
  <-> param_holds k p x /\ matches q (to_dict x) = true.
Proof.
  intros Hk. unfold add_filter, param_holds.
  destruct p as [s|]; [destruct (str_truthy s) eqn:Hs |].
  - rewrite !matches_spec. split.
    + intros H. split.
      * intros s' [= <-] _.
        destruct (H k (VStr s)) as (v' & Hv' & He); [by rewrite lookup_insert_eq |].
        apply value_eqb_str in He. by subst.
      * intros k' v Hkv. apply H.
        rewrite lookup_insert_ne; [done |]. intros <-. congruence.
    + intros [Hp Hq] k' v Hkv.
      destruct (decide (k = k')) as [<- | Hne].
      * rewrite lookup_insert_eq in Hkv. injection Hkv as <-.
        exists (VStr s). split; [| by apply value_eqb_str].
        apply Hp; [done |]. by apply str_truthy_nonempty.
      * rewrite lookup_insert_ne in Hkv by done. by apply Hq.
  - split; [| by intros [_ ?]]. intros H. split; [| done].
    intros s' [= <-] Hne. apply str_truthy_nonempty in Hne. congruence.
  - split; [| by intros [_ ?]]. intros H. split; [| done]. intros s' [=].
Qed.

Lemma pop_ids_to_dict docs :
  pop_ids py_str (map to_dict docs) = Ok (map (public_doc py_str) docs).
Proof.
  induction docs as [|x docs IH]; [done |]. simpl.
  unfold pop_id at 1. unfold to_dict at 1. rewrite lookup_insert_eq.
  by rewrite IH.
Qed.

Lemma filter_all {A} (f : A -> bool) (l : list A) :
  (forall x, f x = true) -> List.filter f l = l.
Proof.
  intros H. induction l as [|a l IH]; [done |]. simpl. by rewrite H, IH.
Qed.

(** A list handler, for the query it has built. *)
Lemma list_handler_run c q w d :
  imported w = true -> db w = Some d -> fault d = None ->
  (ensure_db_available;;
   do docs <- get_documents c (Some q) None;
   lift (pop_ids py_str docs)) w
  = (Ok (map (public_doc py_str)
           (List.filter (fun x => matches q (to_dict x)) (coll d c))), w).
Proof.
  intros Hi Hd Hf.
  erewrite bind_ok; last by eapply ensure_db_available_ok.
  erewrite bind_ok; last first.
  { unfold get_documents. rewrite Hd. simpl.
    erewrite bind_ok; last by (unfold lift, drv_find; rewrite Hf).
    reflexivity. }
  unfold lift. by rewrite pop_ids_to_dict.
Qed.

Lemma add_filter_lookup_ne k p (q : pydict) k' :
  k <> k' -> add_filter k p q !! k' = q !! k'.
Proof.
  intros H. unfold add_filter.
  destruct p as [s|]; [destruct (str_truthy s) |]; try done.
  by rewrite lookup_insert_ne.
Qed.

Lemma matches_two k1 p1 k2 p2 x :
  k1 <> k2 ->
  matches (add_filter k2 p2 (add_filter k1 p1 ∅)) (to_dict x) = true
  <-> param_holds k1 p1 x /\ param_holds k2 p2 x.
Proof.
  intros Hne.
  rewrite matches_add_filter by (by rewrite add_filter_lookup_ne).
  rewrite matches_add_filter by done.
  rewrite matches_empty. clear. tauto.
Qed.

Lemma matches_three k1 p1 k2 p2 k3 p3 x :
  k1 <> k2 -> k1 <> k3 -> k2 <> k3 ->
  matches (add_filter k3 p3 (add_filter k2 p2 (add_filter k1 p1 ∅))) (to_dict x)
  = true
  <-> param_holds k1 p1 x /\ param_holds k2 p2 x /\ param_holds k3 p3 x.
Proof.
  intros H12 H13 H23.
  rewrite matches_add_filter by (by rewrite !add_filter_lookup_ne).
  rewrite matches_two by done. clear. tauto.
Qed.


(** C6: without a store handle every create, list and get handler fails
    with HTTP 503 and leaves the process state untouched (the access layer
    below them would itself refuse, with its own error), while the root and
    diagnostic endpoints answer, the latter reporting the store as not
    available and not connected, with no collections. *)
Theorem unconfigured_store (ObjectId : string -> result N) w :
  db w = None ->
  let unavailable {A} (c : M A) :=
    c w = (Raise (HTTPException 503 db_not_configured), w) in
  (forall s, unavailable (create_student py_str s))
  /\ (forall a b, unavailable (list_students py_str a b))
  /\ (forall i, unavailable (get_student py_str ObjectId i))
  /\ (forall s, unavailable (create_marksheet py_str s))
  /\ (forall a b, unavailable (list_marksheets py_str a b))
  /\ (forall c, unavailable (create_admit_card py_str c))
  /\ (forall a b, unavailable (list_admit_cards py_str a b))
  /\ (forall r, unavailable (mark_attendance py_str r))
  /\ (forall a b c, unavailable (list_attendance py_str a b c))
  /\ (forall c data,
        create_document py_str c data w = (Raise (Exception db_unavailable), w))
  /\ (forall c q n,
        get_documents c q n w = (Raise (Exception db_unavailable), w))
  /\ read_root w = (Ok {[ "message" := VStr "School Helper Backend running" ]}, w)
  /\ exists response,
      test_database w = (Ok response, w)
      /\ response !! "backend" = Some (VStr "✅ Running")
      /\ response !! "database" = Some (VStr "❌ Not Available")
      /\ response !! "connection_status" = Some (VStr "Not Connected")
      /\ response !! "collections" = Some (VList [])
      /\ response !! "database_url"
         = Some (VStr (if opt_str_truthy (environ w !! "DATABASE_URL")
                       then "✅ Set" else "❌ Not Set")).
Proof.
  intros Hd unavailable. unfold unavailable.
  pose proof (ensure_db_available_unconfigured w Hd) as He.
  repeat match goal with
         | |- _ /\ _ => split
         | |- forall _, _ => intro
         end;
    try (by (eapply bind_raise; exact He)).
  - unfold create_document. by rewrite Hd.
  - unfold get_documents. by rewrite Hd.
  - reflexivity.
  - eexists. split.
    + unfold test_database.
      erewrite bind_ok; last reflexivity.
      erewrite bind_ok; last reflexivity.
      unfold main_db. rewrite Hd. destruct (imported w); reflexivity.
    + repeat split.
Qed.

(** C7 (as amended): every list handler returns, in store order and with
    [_id] renamed to [id], exactly the documents of its collection whose
    field equals the value of each filter parameter that is supplied and
    not the empty string; a parameter that is absent or the empty string
    does not constrain the result, so a request without parameters returns
    the whole collection. *)
Theorem list_handlers_filter w d :
  imported w = true -> db w = Some d -> fault d = None ->
  let returns (c : M (list pydict)) (coll_name : string)
              (P : document -> Prop) :=
    exists f : document -> bool,
      (forall x, f x = true <-> P x)
      /\ c w = (Ok (map (public_doc py_str) (List.filter f (coll d coll_name))), w) in
  (forall class_name section,
      returns (list_students py_str class_name section) "student"
        (fun x => param_holds "class_name" class_name x
                  /\ param_holds "section" section x))
  /\ (forall student_id exam_name,
        returns (list_marksheets py_str student_id exam_name) "marksheet"
          (fun x => param_holds "student_id" student_id x
                    /\ param_holds "exam_name" exam_name x))
  /\ (forall student_id exam_name,
        returns (list_admit_cards py_str student_id exam_name) "admitcard"
          (fun x => param_holds "student_id" student_id x
                    /\ param_holds "exam_name" exam_name x))
  /\ (forall student_id date status,
        returns (list_attendance py_str student_id date status) "attendance"
          (fun x => param_holds "student_id" student_id x
                    /\ param_holds "date" date x
                    /\ param_holds "status" status x))
  /\ list_students py_str None None w
     = (Ok (map (public_doc py_str) (coll d "student")), w)
  /\ list_marksheets py_str None None w
     = (Ok (map (public_doc py_str) (coll d "marksheet")), w)
  /\ list_admit_cards py_str None None w
     = (Ok (map (public_doc py_str) (coll d "admitcard")), w)
  /\ list_attendance py_str None None None w
     = (Ok (map (public_doc py_str) (coll d "attendance")), w).
Proof.
  intros Hi Hd Hf returns. unfold returns.
  repeat match goal with |- _ /\ _ => split end.
  - intros p1 p2. eexists. split; [| by apply list_handler_run].
    intros x. by apply matches_two.
  - intros p1 p2. eexists. split; [| by apply list_handler_run].
    intros x. by apply matches_two.
  - intros p1 p2. eexists. split; [| by apply list_handler_run].
    intros x. by apply matches_two.
  - intros p1 p2 p3. eexists. split; [| by apply list_handler_run].
    intros x. by apply matches_three.
  - unfold list_students. erewrite list_handler_run by done.
    rewrite filter_all; [done | intros; apply matches_empty].
  - unfold list_marksheets. erewrite list_handler_run by done.
    rewrite filter_all; [done | intros; apply matches_empty].
  - unfold list_admit_cards. erewrite list_handler_run by done.
    rewrite filter_all; [done | intros; apply matches_empty].
  - unfold list_attendance. erewrite list_handler_run by done.
    rewrite filter_all; [done | intros; apply matches_empty].
Qed.


Lemma model_dump_no_timestamps m :
  model_dump m !! "created_at" = None /\ model_dump m !! "updated_at" = None.
Proof. destruct m; split; reflexivity. Qed.


Lemma create_document_heap c data w :
  exists top, heap (create_document py_str c data w).2 = (heap w ++ top)%list.
Proof.
  unfold create_document.
  destruct (db w) as [d|] eqn:Hd; [| exists []; by rewrite app_nil_r].
  assert (Hal : (exists rec,
                   (match data with
                    | DModel m => alloc (model_dump m)
                    | DDict l => do d0 <- deref l; alloc d0
                    end) w
                   = (Ok (length (heap w)), set_heap (heap w ++ [rec])%list w))
                \/ (exists e,
                      (match data with
                       | DModel m => alloc (model_dump m)
                       | DDict l => do d0 <- deref l; alloc d0
                       end) w = (Raise e, w))).
  { destruct data as [m|l]; [left; by eexists |].
    unfold bind, deref. destruct (heap w !! l); [left | right]; by eexists. }
  destruct Hal as [[rec Hal] | [e Hal]].
  2: { erewrite bind_raise by exact Hal. exists []. by rewrite app_nil_r. }
  erewrite bind_ok by exact Hal.
  erewrite bind_ok; last reflexivity.
  erewrite bind_ok; last by apply setitem_top.
  erewrite bind_ok; last reflexivity.
  erewrite bind_ok; last by apply setitem_top.
  set (doc := <["updated_at" := _]> (<["created_at" := _]> rec)).
  assert (Hins : exists top r,
             insert_one c (length (heap w))
               (set_heap (heap w ++ [doc])%list
                  (tick (set_heap (heap w ++ [<["created_at" :=
                     VDateTime (utc_clock w (clock_reads w))]> rec])%list
                     (tick (set_heap (heap w ++ [rec])%list w)))))
             = (r, top.2) /\ heap top.2 = (heap w ++ top.1)%list).
  { unfold insert_one.
    erewrite bind_ok; last by (unfold deref; simpl; rewrite heap_top_lookup).
    simpl. rewrite Hd. unfold drv_insert_one.
    destruct (fault d); [by eexists (_, _), _ |].
    destruct (doc !! "_id") as [id|].
    - destruct (existsb _ _); [by eexists (_, _), _ |].
      simpl. rewrite heap_top_insert. by eexists (_, _), _.
    - simpl. rewrite heap_top_insert. by eexists (_, _), _. }
  destruct Hins as ([top w1] & r & Hins & Hheap). simpl in *.
  unfold bind at 1. rewrite Hins. exists top.
  destruct r; simpl; exact Hheap.
Qed.

(** C10: [create_document] works on a copy.  Whatever the outcome of the
    call, every dictionary the caller holds, the one passed in included,
    is afterwards what it was before; a record passed without created_at
    and updated_at is still without them, while the document stored by a
    successful call carries them. *)
Theorem create_document_keeps_input c l w rec :
  heap w !! l = Some rec ->
  let out := create_document py_str c (DDict l) w in
  heap out.2 !! l = Some rec
  /\ (rec !! "created_at" = None -> rec !! "updated_at" = None ->
      forall rec', heap out.2 !! l = Some rec' ->
                   rec' !! "created_at" = None /\ rec' !! "updated_at" = None)
  /\ (forall d, db w = Some d -> fault d = None -> rec !! "_id" = None ->
                exists id x,
                  out.1 = Ok id /\ last_stored c out.2 = Some x
                  /\ is_Some (doc_fields x !! "created_at")
                  /\ is_Some (doc_fields x !! "updated_at")).
Proof.
  intros Hl out.
  assert (Hkeep : heap out.2 !! l = Some rec).
  { destruct (create_document_heap c (DDict l) w) as [top Htop].
    unfold out. rewrite Htop. by apply lookup_app_l_Some. }
  split; [exact Hkeep |]. split.
  - intros Hc Hu rec' Hrec'. rewrite Hkeep in Hrec'. by injection Hrec' as <-.
  - intros d Hd Hf Hid. unfold out.
    erewrite create_document_run by eauto. simpl.
    eexists _, _. split; [done |]. split; [apply last_stored_created |].
    simpl. unfold stamped.
    rewrite lookup_insert_ne, !lookup_insert_eq by done. by split; eexists.
Qed.
(** *** Sums and rounding *)

Lemma fold_left_Qplus_acc (l : list Q) (a : Q) :
  (fold_left Qplus l a == a + fold_left Qplus l 0)%Q.
Proof.
  revert a. induction l as [|x l IH]; intros a; simpl.
  - ring.
  - rewrite (IH (a + x)%Q), (IH (0 + x)%Q). ring.
Qed.

Lemma pysum_cons x l : (pysum (x :: l) == x + pysum l)%Q.
Proof.
  unfold pysum. simpl. rewrite fold_left_Qplus_acc. ring.
Qed.

Lemma pysum_nonneg (l : list Q) :
  Forall (fun x => (0 <= x)%Q) l -> (0 <= pysum l)%Q.
Proof.
  induction 1 as [|x l Hx Hl IH]; [by vm_compute |].
  rewrite pysum_cons. replace 0%Q with (0 + 0)%Q by reflexivity.
  by apply Qplus_le_compat.
Qed.

Lemma pysum_pos (l : list Q) :
  l <> [] -> Forall (fun x => (0 < x)%Q) l -> (0 < pysum l)%Q.
Proof.
  intros Hne Hall. destruct Hall as [|x l Hx Hl]; [done |].
  rewrite pysum_cons. replace 0%Q with (0 + 0)%Q by reflexivity.
  apply Qplus_lt_le_compat; [done |].
  apply pysum_nonneg. eapply Forall_impl; [exact Hl |].
  intros y Hy. by apply Qlt_le_weak.
Qed.

Lemma pysum_le {A} (f g : A -> Q) (l : list A) :
  Forall (fun a => (f a <= g a)%Q) l -> (pysum (map f l) <= pysum (map g l))%Q.
Proof.
  induction 1 as [|x l Hx Hl IH]; [by vm_compute |].
  simpl. rewrite !pysum_cons. by apply Qplus_le_compat.
Qed.

Lemma round_half_even_lower (y : Q) (a : Z) :
  (inject_Z a <= y)%Q -> a <= round_half_even y.
Proof.
  intros Ha. apply Qfloor_resp_le in Ha. rewrite Qfloor_Z in Ha.
  unfold round_half_even.
  repeat match goal with |- context [if ?b then _ else _] => destruct b end; lia.
Qed.

Lemma round_half_even_upper (y : Q) (b : Z) :
  (y <= inject_Z b)%Q -> round_half_even y <= b.
Proof.
  intros Hb. pose proof (Qfloor_resp_le _ _ Hb) as Hf. rewrite Qfloor_Z in Hf.
  unfold round_half_even.
  destruct (Qlt_bool (y - inject_Z (Qfloor y)) (1 # 2)) eqn:Hlow; [done |].
  assert (Hlt : (inject_Z (Qfloor y) < y)%Q).
  { destruct (Qlt_le_dec (inject_Z (Qfloor y)) y) as [H | H]; [done |].
    exfalso. apply not_true_iff_false in Hlow. apply Hlow.
    apply Qlt_bool_iff.
    apply Qle_lt_trans with (y := 0%Q); [| reflexivity].
    apply Qle_minus_iff in H.
    apply Qle_minus_iff.
    assert (E : (0 + - (y - inject_Z (Qfloor y)) == inject_Z (Qfloor y) + - y)%Q) by ring.
    by rewrite E. }
  assert (Hfb : Qfloor y < b).
  { pose proof (Qlt_le_trans _ _ _ Hlt Hb) as H.
    by rewrite <- Zlt_Qlt in H. }
  repeat match goal with |- context [if ?c then _ else _] => destruct c end; lia.
Qed.

Lemma round2_lower (x : Q) (a : Z) :
  (inject_Z a <= x)%Q -> (inject_Z a <= round2 x)%Q.
Proof.
  intros Ha. unfold round2. rewrite Qred_correct.
  assert (Hl : a * 100 <= round_half_even (x * 100)).
  { apply round_half_even_lower. rewrite inject_Z_mult.
    by apply Qmult_le_compat_r. }
  unfold Qle, inject_Z. simpl. lia.
Qed.

Lemma round2_upper (x : Q) (b : Z) :
  (x <= inject_Z b)%Q -> (round2 x <= inject_Z b)%Q.
Proof.
  intros Hb. unfold round2. rewrite Qred_correct.
  assert (Hu : round_half_even (x * 100) <= b * 100).
  { apply round_half_even_upper. rewrite inject_Z_mult.
    by apply Qmult_le_compat_r. }
  unfold Qle, inject_Z. simpl. lia.
Qed.

Lemma forallb_Forall {A} (f : A -> bool) (l : list A) :
  forallb f l = true -> Forall (fun a => f a = true) l.
Proof.
  induction l as [|a l IH]; simpl; [by constructor |].
  intros [Ha Hl]%andb_true_iff. constructor; auto.
Qed.

Lemma server_percentage_bounds sheet :
  (0 <= (totals sheet).1)%Q -> (0 < (totals sheet).2)%Q ->
  (0 <= server_percentage sheet)%Q
  /\ (((totals sheet).1 <= (totals sheet).2)%Q ->
      (server_percentage sheet <= 100)%Q).
Proof.
  intros Ho Hm. unfold server_percentage.
  rewrite (proj2 (Qlt_bool_iff _ _) Hm). split.
  - apply Qmult_le_0_compat; [| by vm_compute].
    apply Qle_shift_div_l; [done |]. by rewrite Qmult_0_l.
  - intros Hle.
    assert (H1 : ((totals sheet).1 / (totals sheet).2 <= 1)%Q).
    { apply Qle_shift_div_r; [done |]. by rewrite Qmult_1_l. }
    apply (Qmult_le_compat_r _ _ 100) in H1; [| by vm_compute].
    by rewrite Qmult_1_l in H1.
Qed.


(** X2: a higher percentage never gives a lower letter. *)
Theorem letter_grade_monotone (p q : Q) :
  (p <= q)%Q -> (grade_rank (letter_grade p) <= grade_rank (letter_grade q))%nat.
Proof.
  intros Hpq.
  assert (Hup : forall t, Qle_bool t p = true -> Qle_bool t q = true).
  { intros t Ht. apply Qle_bool_iff. apply Qle_bool_iff in Ht.
    by apply Qle_trans with (y := p). }
  unfold letter_grade.
  destruct (Qle_bool 90 p) eqn:P90; [rewrite (Hup _ P90); (vm_compute; lia) |].
  destruct (Qle_bool 80 p) eqn:P80;
    [rewrite (Hup _ P80); destruct (Qle_bool 90 q); (vm_compute; lia) |].
  destruct (Qle_bool 70 p) eqn:P70;
    [rewrite (Hup _ P70); destruct (Qle_bool 90 q), (Qle_bool 80 q); (vm_compute; lia) |].
  destruct (Qle_bool 60 p) eqn:P60;
    [rewrite (Hup _ P60);
     destruct (Qle_bool 90 q), (Qle_bool 80 q), (Qle_bool 70 q); (vm_compute; lia) |].
  destruct (Qle_bool 50 p) eqn:P50;
    [rewrite (Hup _ P50);
     destruct (Qle_bool 90 q), (Qle_bool 80 q), (Qle_bool 70 q), (Qle_bool 60 q);
     (vm_compute; lia) |].
  destruct (Qle_bool 90 q), (Qle_bool 80 q), (Qle_bool 70 q), (Qle_bool 60 q),
    (Qle_bool 50 q); vm_compute; lia.
Qed.

(** *** Looking up and creating students *)

Lemma find_none_intro {A} (f : A -> bool) (l : list A) :
  (forall x, x ∈ l -> f x = false) -> List.find f l = None.
Proof.
  induction l as [|a l IH]; intros H; simpl; [done |].
  rewrite (H a) by left. apply IH. intros x Hx. apply H. by right.
Qed.

Lemma find_app_last {A} (f : A -> bool) (l : list A) (x : A) :
  (forall y, y ∈ l -> f y = false) -> f x = true ->
  List.find f (l ++ [x])%list = Some x.
Proof.
  induction l as [|a l IH]; intros H Hx; simpl; [by rewrite Hx |].
  rewrite (H a) by left. apply IH; [| done]. intros y Hy. apply H. by right.
Qed.

Lemma value_eqb_oid n v : value_eqb (VObjectId n) v = true <-> v = VObjectId n.
Proof.
  destruct v; simpl; try (split; [discriminate | discriminate]).
  rewrite N.eqb_eq. split; [by intros -> | by intros [= ->]].
Qed.

Lemma matches_singleton k v (dct : pydict) :
  matches {[ k := v ]} dct
  = match dct !! k with Some v' => value_eqb v v' | None => false end.
Proof.
  unfold matches. rewrite map_to_list_singleton. simpl.
  by rewrite andb_true_r.
Qed.

Lemma roll_no_matches r x :
  matches {[ "roll_no" := VStr r ]} (to_dict x) = true
  <-> doc_fields x !! "roll_no" = Some (VStr r).
Proof.
  rewrite matches_singleton, to_dict_lookup_ne by done.
  destruct (doc_fields x !! "roll_no") as [v|]; [| done].
  rewrite value_eqb_str. split; [by intros -> | by intros [= ->]].
Qed.

Lemma created_imported c rec d w : imported (created c rec d w) = imported w.
Proof. reflexivity. Qed.

Lemma created_db c rec d w :
  db (created c rec d w)
  = Some (append_doc c {| doc_id := VObjectId (next_oid d);
                          doc_fields := stamped rec w |} d (next_oid d + 1)%N).
Proof. reflexivity. Qed.

Lemma coll_append_doc c x d n : coll (append_doc c x d n) c = (coll d c ++ [x])%list.
Proof. unfold coll, append_doc. simpl. by rewrite lookup_insert_eq. Qed.

Lemma coll_append_doc_ne c c' x d n :
  c <> c' -> coll (append_doc c x d n) c' = coll d c'.
Proof. intros H. unfold coll, append_doc. simpl. by rewrite lookup_insert_ne. Qed.

Lemma create_student_run s w d :
  imported w = true -> db w = Some d -> fault d = None ->
  (forall x, x ∈ coll d "student" ->
             doc_fields x !! "roll_no" <> Some (VStr (Student.roll_no s))) ->
  create_student py_str s w
  = (Ok {[ "id" := VStr (py_str (VObjectId (next_oid d))) ]},
     created "student" (Student.model_dump s) d w).
Proof.
  intros Hi Hd Hf Hfresh. unfold create_student.
  erewrite bind_ok; last by eapply ensure_db_available_ok.
  erewrite bind_ok; last first.
  { unfold main_db. rewrite Hi, Hd. unfold lift, drv_find_one. rewrite Hf.
    rewrite find_none_intro; [reflexivity |].
    intros x Hx. apply not_true_iff_false. rewrite roll_no_matches.
    by apply Hfresh. }
  simpl.
  erewrite bind_ok; last first.
  { eapply (create_document_run "student" (DModel (MStudent s))); eauto. }
  reflexivity.
Qed.

Lemma create_student_conflict_run s w d x :
  imported w = true -> db w = Some d -> fault d = None ->
  x ∈ coll d "student" ->
  doc_fields x !! "roll_no" = Some (VStr (Student.roll_no s)) ->
  create_student py_str s w
  = (Raise (HTTPException 409 "Roll number already exists"), w).
Proof.
  intros Hi Hd Hf Hin Hroll. unfold create_student.
  erewrite bind_ok; last by eapply ensure_db_available_ok.
  destruct (List.find (fun y => matches {[ "roll_no" := VStr (Student.roll_no s) ]}
                                  (to_dict y)) (coll d "student")) as [y|] eqn:Hfind.
  - erewrite bind_ok; last first.
    { unfold main_db. rewrite Hi, Hd. unfold lift, drv_find_one.
      rewrite Hf, Hfind. reflexivity. }
    simpl. unfold to_dict at 1. by rewrite dict_truthy_insert.
  - exfalso. apply list_elem_of_In in Hin.
    pose proof (find_none _ _ Hfind x Hin) as Hn. simpl in Hn.
    apply not_true_iff_false in Hn. apply Hn. by apply roll_no_matches.
Qed.



Lemma roll_nos_snoc l x v :
  doc_fields x !! "roll_no" = Some v -> roll_nos (l ++ [x]) = (roll_nos l ++ [v])%list.
Proof.
  intros H. unfold roll_nos. rewrite omap_app. simpl. by rewrite H.
Qed.


(** *** Fetching a student *)

Lemma oid_matches n x :
  matches {[ "_id" := VObjectId n ]} (to_dict x) = true <-> doc_id x = VObjectId n.
Proof.
  rewrite matches_singleton. unfold to_dict. rewrite lookup_insert_eq.
  apply value_eqb_oid.
Qed.

Lemma plain_id_matches i x :
  matches {[ "id" := VStr i ]} (to_dict x) = true
  <-> doc_fields x !! "id" = Some (VStr i).
Proof.
  rewrite matches_singleton, to_dict_lookup_ne by done.
  destruct (doc_fields x !! "id") as [v|]; [| done].
  rewrite value_eqb_str. split; [by intros -> | by intros [= ->]].
Qed.

(** [get_student], once the database is known to be there and to answer:
    the query it runs, and what it makes of the answer. *)
Lemma get_student_run (ObjectId : string -> result N) i w d :
  imported w = true -> db w = Some d -> fault d = None ->
  get_student py_str ObjectId i w
  = (match List.find (fun y => matches
                                 match ObjectId i with
                                 | Ok n => {[ "_id" := VObjectId n ]}
                                 | Raise _ => {[ "id" := VStr i ]}
                                 end (to_dict y)) (coll d "student") with
     | Some x => Ok (public_doc py_str x)
     | None => Raise (HTTPException 404 "Student not found")
     end, w).
Proof.
  intros Hi Hd Hf. unfold get_student.
  erewrite bind_ok; last by eapply ensure_db_available_ok.
  destruct (ObjectId i) as [n|e].
  all: erewrite bind_ok;
    [| unfold try_except, bind, lift, on_handle, main_db; rewrite Hi, Hd;
       unfold lift, drv_find_one; rewrite Hf; reflexivity].
  all: destruct (List.find _ _) as [x|]; simpl; [| done].
  all: unfold to_dict at 1; rewrite dict_truthy_insert.
  all: unfold to_dict at 1; by rewrite lookup_insert_eq.
Qed.


(** X7: [get_student] answers HTTP 404, leaving the state as it was, when
    the lookup it runs finds nothing.  For a well-formed identifier that is
    the lookup by [_id] alone: the fallback on a plain [id] field is tried
    only when the identifier is malformed. *)
Theorem get_student_not_found (ObjectId : string -> result N) i w d :
  imported w = true -> db w = Some d -> fault d = None ->
  match ObjectId i with
  | Ok n => forall x, x ∈ coll d "student" -> doc_id x <> VObjectId n
  | Raise _ => forall x, x ∈ coll d "student" ->
                         doc_fields x !! "id" <> Some (VStr i)
  end ->
  get_student py_str ObjectId i w
  = (Raise (HTTPException 404 "Student not found"), w).
Proof.
  intros Hi Hd Hf Hnone. rewrite (get_student_run ObjectId i w d) by done.
  rewrite find_none_intro; [done |].
  intros x Hx. apply not_true_iff_false.
  destruct (ObjectId i) as [n|e].
  - rewrite oid_matches. by apply Hnone.
  - rewrite plain_id_matches. by apply Hnone.
Qed.

(** *** Failures of the store *)

Lemma create_document_fault c m w d msg :
  db w = Some d -> fault d = Some msg ->
  exists w', create_document py_str c (DModel m) w = (Raise (Exception msg), w')
             /\ db w' = Some d.
Proof.
  intros Hd Hf. unfold create_document. rewrite Hd.
  erewrite bind_ok; last reflexivity.
  erewrite bind_ok; last reflexivity.
  erewrite bind_ok; last by apply setitem_top.
  erewrite bind_ok; last reflexivity.
  erewrite bind_ok; last by apply setitem_top.
  eexists. split.
  - eapply bind_raise. unfold insert_one.
    erewrite bind_ok; last by (unfold deref; simpl; rewrite heap_top_lookup).
    simpl. rewrite Hd. unfold drv_insert_one. rewrite Hf. reflexivity.
  - reflexivity.
Qed.


(** *** Handlers that only read *)

Lemma read_only_ret {A} (a : A) : read_only (ret a).
Proof. by intros w. Qed.

Lemma read_only_raise {A} e : read_only (@raise A e).
Proof. by intros w. Qed.

Lemma read_only_lift {A} (r : result A) : read_only (lift r).
Proof. by intros w. Qed.

Lemma read_only_bind {A B} (c : M A) (k : A -> M B) :
  read_only c -> (forall a, read_only (k a)) -> read_only (bind c k).
Proof.
  intros Hc Hk w. unfold bind. specialize (Hc w).
  destruct (c w) as [[a|e] w1]; simpl in *; subst; [apply Hk | done].
Qed.

Lemma read_only_try_except {A} (c : M A) (h : exn -> M A) :
  read_only c -> (forall e, read_only (h e)) -> read_only (try_except c h).
Proof.
  intros Hc Hh w. unfold try_except. specialize (Hc w).
  destruct (c w) as [[a|e] w1]; simpl in *; subst; [done | apply Hh].
Qed.

Lemma read_only_on_handle {A} (f : database -> result A) :
  read_only (fun w => on_handle (main_db w) f w).
Proof. intros w. unfold on_handle. by destruct (main_db w). Qed.

Lemma read_only_ensure : read_only ensure_db_available.
Proof. intros w. unfold ensure_db_available. by destruct (_ || _). Qed.

Lemma read_only_get_documents c q n : read_only (get_documents c q n).
Proof.
  intros w. unfold get_documents. destruct (db w); [| done].
  apply read_only_bind; [apply read_only_lift | intros; apply read_only_ret].
Qed.

Lemma read_only_list c q :
  read_only (ensure_db_available;;
             do docs <- get_documents c (Some q) None;
             lift (pop_ids py_str docs)).
Proof.
  apply read_only_bind; [apply read_only_ensure | intros _].
  apply read_only_bind; [apply read_only_get_documents | intros docs].
  apply read_only_lift.
Qed.

(** X9: the list handlers, [get_student], [get_documents] and the root and
    diagnostic endpoints only read: whatever the request, the configuration
    and the outcome, the process state, the store included, is afterwards what
    it was before. *)
Theorem read_handlers_change_nothing (ObjectId : string -> result N) :
  read_only read_root
  /\ read_only test_database
  /\ (forall a b, read_only (list_students py_str a b))
  /\ (forall i, read_only (get_student py_str ObjectId i))
  /\ (forall a b, read_only (list_marksheets py_str a b))
  /\ (forall a b, read_only (list_admit_cards py_str a b))
  /\ (forall a b c, read_only (list_attendance py_str a b c))
  /\ (forall c q n, read_only (get_documents c q n)).
Proof.
  repeat match goal with |- _ /\ _ => split end.
  - apply read_only_ret.
  - unfold test_database.
    apply read_only_bind; [by intros w | intros url].
    apply read_only_bind; [by intros w | intros name].
    intros w. destruct (main_db w) as [d|]; [| done].
    by destruct (drv_list_collection_names d).
  - intros a b. apply read_only_list.
  - intros i. unfold get_student.
    apply read_only_bind; [apply read_only_ensure | intros _].
    apply read_only_bind.
    + apply read_only_try_except.
      * apply read_only_bind; [apply read_only_lift | intros n].
        apply (read_only_on_handle (drv_find_one "student" {[ "_id" := VObjectId n ]})).
      * intros e.
        apply (read_only_on_handle (drv_find_one "student" {[ "id" := VStr i ]})).
    + intros [doc|]; [| apply read_only_raise].
      destruct (dict_truthy doc); [| apply read_only_raise].
      destruct (doc !! "_id"); apply read_only_ret.
  - intros a b. apply read_only_list.
  - intros a b. apply read_only_list.
  - intros a b c. apply read_only_list.
  - intros c q n. apply read_only_get_documents.
Qed.

(** X10: the diagnostic endpoint never fails.  With a store that answers it
    reports "Connected & Working" and at most ten collection names; with a
    store whose driver raises it still answers, reporting the handle as
    connected together with the first fifty characters of the error, and no
    collections. *)
Theorem test_database_always_answers w :
  exists response,
    test_database w = (Ok response, w)
    /\ response !! "backend" = Some (VStr "✅ Running")
    /\ (forall d, main_db w = Some d -> fault d = None ->
          response !! "database" = Some (VStr "✅ Connected & Working")
          /\ response !! "connection_status" = Some (VStr "Connected")
          /\ exists names,
               response !! "collections" = Some (VList (map VStr names))
               /\ (length names <= 10)%nat
               /\ forall c, c ∈ names -> is_Some (collections d !! c))
    /\ (forall d msg, main_db w = Some d -> fault d = Some msg ->
          response !! "database"
          = Some (VStr ("⚠️  Connected but Error: " +:+ String.substring 0 50 msg))
          /\ response !! "connection_status" = Some (VStr "Connected")
          /\ response !! "collections" = Some (VList [])).
Proof.
  unfold test_database.
  erewrite bind_ok; last reflexivity.
  erewrite bind_ok; last reflexivity.
  destruct (main_db w) as [d|] eqn:Hm.
  - unfold drv_list_collection_names.
    destruct (fault d) as [msg|] eqn:Hf.
    + eexists. split; [reflexivity |]. split; [reflexivity |]. split.
      * intros d' [= <-] Hf'. congruence.
      * intros d' msg' [= <-] Hf'. rewrite Hf in Hf'. injection Hf' as <-.
        repeat split.
    + eexists. split; [reflexivity |]. split; [reflexivity |]. split.
      * intros d' [= <-] _. split; [reflexivity |]. split; [reflexivity |].
        eexists. split; [reflexivity |]. split.
        { rewrite length_take. lia. }
        intros c Hc. apply elem_of_take in Hc as (i & Hc & _).
        apply list_elem_of_lookup_2 in Hc.
        apply list_elem_of_fmap in Hc as ([c' docs] & -> & Hin).
        apply elem_of_map_to_list in Hin. by eexists.
      * intros d' msg' [= <-] Hf'. congruence.
  - eexists. split; [reflexivity |]. split; [reflexivity |].
    split; intros; discriminate.
Qed.

(** *** What a creation may change in the store *)

Lemma insert_one_appends_only c h doc w d :
  heap w = (h ++ [doc])%list -> db w = Some d ->
  exists r w' d' new,
    insert_one c (length h) w = (r, w')
    /\ db w' = Some d'
    /\ coll d' c = (coll d c ++ new)%list
    /\ (length new <= 1)%nat
    /\ (forall e, r = Raise e -> new = [])
    /\ (forall c', c <> c' -> coll d' c' = coll d c').
Proof.
  intros Hh Hd. unfold insert_one.
  erewrite bind_ok; last by (unfold deref; rewrite Hh, heap_top_lookup).
  rewrite Hd. unfold drv_insert_one.
  destruct (fault d).
  { eexists _, _, d, []. split; [reflexivity |]. simpl.
    rewrite app_nil_r. repeat split; auto. }
  destruct (doc !! "_id") as [id|].
  - destruct (existsb _ _).
    { eexists _, _, d, []. split; [reflexivity |]. simpl.
      rewrite app_nil_r. repeat split; auto. }
    eexists _, _, _, [_]. split; [reflexivity |]. simpl.
    split; [reflexivity |]. split; [apply coll_append_doc |].
    split; [lia |]. split; [by intros ? [=] |].
    intros c' Hc'. by apply coll_append_doc_ne.
  - eexists _, _, _, [_]. split; [reflexivity |]. simpl.
    split; [reflexivity |]. split; [apply coll_append_doc |].
    split; [lia |]. split; [by intros ? [=] |].
    intros c' Hc'. by apply coll_append_doc_ne.
Qed.

(** X11: [create_document] only ever appends.  Whatever its argument and its
    outcome, the documents already in the collection stay, in order and
    unchanged, at most one document is added after them, none when the call
    fails, and every other collection is left alone. *)
Theorem create_document_appends_only c data w d :
  db w = Some d ->
  let out := create_document py_str c data w in
  exists d' new,
    db out.2 = Some d'
    /\ coll d' c = (coll d c ++ new)%list
    /\ (length new <= 1)%nat
    /\ (forall e, out.1 = Raise e -> new = [])
    /\ (forall c', c <> c' -> coll d' c' = coll d c').
Proof.
  intros Hd out. unfold out, create_document. rewrite Hd.
  assert (Hal : (exists rec,
                   (match data with
                    | DModel m => alloc (model_dump m)
                    | DDict l => do d0 <- deref l; alloc d0
                    end) w
                   = (Ok (length (heap w)), set_heap (heap w ++ [rec])%list w))
                \/ (exists e,
                      (match data with
                       | DModel m => alloc (model_dump m)
                       | DDict l => do d0 <- deref l; alloc d0
                       end) w = (Raise e, w))).
  { destruct data as [m|l]; [left; by eexists |].
    unfold bind, deref. destruct (heap w !! l); [left | right]; by eexists. }
  destruct Hal as [[rec Hal] | [e Hal]].
  2: { erewrite bind_raise by exact Hal. exists d, []. simpl.
       rewrite app_nil_r. repeat split; auto. }
  erewrite bind_ok by exact Hal.
  erewrite bind_ok; last reflexivity.
  erewrite bind_ok; last by apply setitem_top.
  erewrite bind_ok; last reflexivity.
  erewrite bind_ok; last by apply setitem_top.
  match goal with
  | |- context [bind (insert_one c (length (heap w))) _ ?w0] =>
      destruct (insert_one_appends_only c (heap w) _ w0 d eq_refl Hd)
        as (r & w' & d' & new & Hins & Hdb & Hc & Hlen & Hfail & Hother)
  end.
  unfold bind. rewrite Hins. exists d', new.
  destruct r as [id|e]; simpl; repeat split; auto.
  - intros e [=].
  - intros e0 _. by apply (Hfail e).
Qed.

(** *** What the list handlers hand out *)

Lemma bind_ok_inv {A B} (c : M A) (k : A -> M B) w b w' :
  bind c k w = (Ok b, w') -> exists a w1, c w = (Ok a, w1) /\ k a w1 = (Ok b, w').
Proof.
  unfold bind. destruct (c w) as [[a|e] w1]; [eauto | discriminate].
Qed.

Lemma pop_ids_shape docs out :
  pop_ids py_str docs = Ok out ->
  length out = length docs
  /\ Forall (fun doc : pydict =>
               doc !! "_id" = None /\ exists s, doc !! "id" = Some (VStr s)) out.
Proof.
  revert out. induction docs as [|doc docs IH]; intros out; simpl.
  - intros [= <-]. by split.
  - unfold pop_id. destruct (doc !! "_id") as [v|]; [| discriminate].
    destruct (pop_ids py_str docs) as [rest|]; [| discriminate].
    intros [= <-]. destruct (IH rest eq_refl) as [Hlen Hall].
    split; [simpl; by rewrite Hlen |]. constructor; [| done]. split.
    + by rewrite lookup_insert_ne, lookup_delete_eq.
    + eexists. by rewrite lookup_insert_eq.
Qed.

Lemma list_handler_shape c q w docs w' :
  (ensure_db_available;;
   do found <- get_documents c (Some q) None;
   lift (pop_ids py_str found)) w = (Ok docs, w') ->
  Forall (fun doc : pydict =>
            doc !! "_id" = None /\ exists s, doc !! "id" = Some (VStr s)) docs.
Proof.
  intros H.
  apply bind_ok_inv in H as (_ & w1 & _ & H).
  apply bind_ok_inv in H as (found & w2 & _ & H).
  unfold lift in H. injection H as H _. by apply pop_ids_shape in H as [_ ?].
Qed.

(** X12: no handler hands out the store's [_id].  Every document in the
    answer of a list handler has a string [id] and no [_id], and the document
    answered by [get_student] has no [_id]. *)
Theorem answers_hide_store_id (ObjectId : string -> result N) w w' :
  let public (doc : pydict) :=
    doc !! "_id" = None /\ exists s, doc !! "id" = Some (VStr s) in
  (forall a b docs, list_students py_str a b w = (Ok docs, w') -> Forall public docs)
  /\ (forall a b docs, list_marksheets py_str a b w = (Ok docs, w') -> Forall public docs)
  /\ (forall a b docs, list_admit_cards py_str a b w = (Ok docs, w') -> Forall public docs)
  /\ (forall a b c docs,
        list_attendance py_str a b c w = (Ok docs, w') -> Forall public docs)
  /\ (forall i doc,
        get_student py_str ObjectId i w = (Ok doc, w') -> doc !! "_id" = None).
Proof.
  intros public. unfold public.
  repeat match goal with |- _ /\ _ => split end;
    try (intros; by eapply list_handler_shape).
  intros i doc H. unfold get_student in H.
  apply bind_ok_inv in H as (_ & w1 & _ & H).
  apply bind_ok_inv in H as (found & w2 & _ & H).
  destruct found as [found|]; [| discriminate].
  destruct (dict_truthy found); [| discriminate].
  destruct (found !! "_id") as [v|] eqn:Hid.
  - injection H as <- _. by rewrite lookup_insert_ne, lookup_delete_eq.
  - by injection H as <- _.
Qed.

(** *** A marksheet, created and listed *)

Lemma grade_sheet_frame sheet :
  exists sheet',
    grade_sheet sheet = Ok sheet'
    /\ Marksheet.student_id sheet' = Marksheet.student_id sheet
    /\ Marksheet.exam_name sheet' = Marksheet.exam_name sheet
    /\ Marksheet.class_name sheet' = Marksheet.class_name sheet
    /\ Marksheet.year sheet' = Marksheet.year sheet
    /\ Marksheet.subjects sheet' = Marksheet.subjects sheet.
Proof.
  destruct (Marksheet.subjects sheet) as [|s0 rest] eqn:Hs.
  - exists sheet. rewrite grade_sheet_empty by done. by rewrite Hs.
  - eexists. rewrite grade_sheet_graded by (by rewrite Hs). simpl.
    by rewrite Hs.
Qed.

Lemma filter_snoc {A} (f : A -> bool) (l : list A) (x : A) :
  f x = true -> List.filter f (l ++ [x]) = (List.filter f l ++ [x])%list.
Proof. intros H. rewrite List.filter_app. simpl. by rewrite H. Qed.

(** X13: a marksheet that has just been created is found again.  Listing
    the marksheets with the sheet's own student_id and exam_name as filters
    answers a list whose last document is the new one: it carries the id that
    the creation answered and the submitted student_id, exam_name, class_name,
    year and subjects. *)
Theorem create_then_list_marksheets sheet w d :
  imported w = true -> db w = Some d -> fault d = None ->
  exists id w1 docs doc,
    create_marksheet py_str sheet w = (Ok {[ "id" := VStr id ]}, w1)
    /\ list_marksheets py_str (Some (Marksheet.student_id sheet))
         (Some (Marksheet.exam_name sheet)) w1 = (Ok docs, w1)
    /\ last docs = Some doc
    /\ doc !! "id" = Some (VStr id)
    /\ doc !! "student_id" = Some (VStr (Marksheet.student_id sheet))
    /\ doc !! "exam_name" = Some (VStr (Marksheet.exam_name sheet))
    /\ doc !! "class_name" = Some (VStr (Marksheet.class_name sheet))
    /\ doc !! "year" = Some (VInt (Marksheet.year sheet))
    /\ doc !! "subjects"
       = Some (VList (map SubjectMark.model_dump (Marksheet.subjects sheet))).
Proof.
  intros Hi Hd Hf.
  destruct (grade_sheet_frame sheet) as (sheet' & Hg & H1 & H2 & H3 & H4 & H5).
  set (x := {| doc_id := VObjectId (next_oid d);
               doc_fields := stamped (Marksheet.model_dump sheet') w |}).
  assert (Hfield : forall k, k <> "created_at" -> k <> "updated_at" -> k <> "_id" ->
             to_dict x !! k = Marksheet.model_dump sheet' !! k).
  { intros k ? ? ?. rewrite to_dict_lookup_ne by done. simpl.
    by apply stamped_lookup_ne. }
  set (q := add_filter "exam_name" (Some (Marksheet.exam_name sheet))
              (add_filter "student_id" (Some (Marksheet.student_id sheet)) ∅)).
  exists (py_str (VObjectId (next_oid d))),
    (created "marksheet" (Marksheet.model_dump sheet') d w),
    (map (public_doc py_str)
       (List.filter (fun y => matches q (to_dict y)) (coll d "marksheet"))
     ++ [public_doc py_str x])%list,
    (public_doc py_str x).
  split; [by apply create_marksheet_run |]. split.
  - unfold list_marksheets. fold q. erewrite list_handler_run;
      [| by rewrite created_imported | apply created_db | exact Hf].
    rewrite coll_append_doc, filter_snoc; [by rewrite map_app |].
    apply matches_two; [done |]. unfold param_holds.
    split; intros s [= <-] _; rewrite Hfield by done.
    + by rewrite <- H1.
    + by rewrite <- H2.
  - split; [apply last_snoc |].
    unfold public_doc. split; [by rewrite lookup_insert_eq |].
    rewrite !lookup_insert_ne, !lookup_delete_ne, !Hfield by done.
    rewrite <- H1, <- H2, <- H3, <- H4, <- H5. by repeat split.
Qed.

(** *** Start of the process *)

Lemma opt_str_truthy_Some o :
  opt_str_truthy o = true <-> exists s, o = Some s /\ s <> "".
Proof.
  destruct o as [s|]; simpl.
  - rewrite str_truthy_nonempty. split; [eauto | by intros (? & [= <-] & ?)].
  - split; [done | by intros (? & ? & _)].
Qed.

(** X14: the handlers are available exactly when the configuration is
    complete.  After start-up the store handle is set, and
    [ensure_db_available] lets requests through, if and only if the driver
    could be imported, DATABASE_URL and DATABASE_NAME are both set and not
    empty, and connecting with them raised nothing; in every other case each
    request to a data handler is answered with HTTP 503. *)
Theorem startup_availability MongoClient env clock :
  let w := startup MongoClient env clock in
  (ensure_db_available w = (Ok (), w)
   <-> exists client_of client url name d,
         MongoClient = Some client_of
         /\ env !! "DATABASE_URL" = Some url /\ url <> ""
         /\ env !! "DATABASE_NAME" = Some name /\ name <> ""
         /\ client_of url = Ok client /\ client name = Ok d
         /\ db w = Some d)
  /\ (ensure_db_available w = (Ok (), w)
      \/ ensure_db_available w = (Raise (HTTPException 503 db_not_configured), w)).
Proof.
  intros w. split.
  - split.
    + intros He. unfold ensure_db_available, main_db in He. simpl in He.
      unfold init_db in *.
      destruct MongoClient as [client_of|]; [| discriminate].
      destruct (opt_str_truthy (env !! "DATABASE_URL")) eqn:Hu; [| discriminate].
      destruct (opt_str_truthy (env !! "DATABASE_NAME")) eqn:Hn; [| discriminate].
      apply opt_str_truthy_Some in Hu as (url & Hu & Hu').
      apply opt_str_truthy_Some in Hn as (name & Hn & Hn').
      rewrite Hu, Hn in He. simpl in He.
      destruct (client_of url) as [client|] eqn:Hc; [| discriminate].
      destruct (client name) as [d|] eqn:Hd; [| discriminate].
      exists client_of, client, url, name, d. repeat split; try done.
      unfold w, startup, init_db. simpl.
      rewrite Hu, Hn. simpl.
      assert (T1 : str_truthy url = true) by (by apply str_truthy_nonempty).
      assert (T2 : str_truthy name = true) by (by apply str_truthy_nonempty).
      by rewrite T1, T2, Hc, Hd.
    + intros (client_of & client & url & name & d & -> & Hu & Hu' & Hn & Hn' & Hc & Hd & Hdb).
      by apply (ensure_db_available_ok w d).
  - unfold ensure_db_available. destruct (_ || _); auto.
Qed.

Lemma find_middle {A} (f : A -> bool) (l r : list A) (x : A) :
  (forall y, y ∈ l -> f y = false) -> f x = true ->
  List.find f (l ++ x :: r)%list = Some x.
Proof.
  induction l as [|a l IH]; intros H Hx; simpl; [by rewrite Hx |].
  rewrite (H a) by left. apply IH; [| done]. intros y Hy. apply H. by right.
Qed.

(** X15: the fallback of [get_student].  For a malformed identifier the
    first student document whose plain [id] field equals the requested string
    is answered; in the answer that [id] field is overwritten with the string
    of the document's [_id], and every other field is the stored one. *)
Theorem get_student_fallback (ObjectId : string -> result N) i w d e l x r :
  imported w = true -> db w = Some d -> fault d = None ->
  ObjectId i = Raise e ->
  coll d "student" = (l ++ x :: r)%list ->
  (forall y, y ∈ l -> doc_fields y !! "id" <> Some (VStr i)) ->
  doc_fields x !! "id" = Some (VStr i) ->
  exists doc,
    get_student py_str ObjectId i w = (Ok doc, w)
    /\ doc !! "id" = Some (VStr (py_str (doc_id x)))
    /\ doc !! "_id" = None
    /\ (forall k, k <> "id" -> k <> "_id" -> doc !! k = doc_fields x !! k).
Proof.
  intros Hi Hd Hf Ho Hc Hl Hx. exists (public_doc py_str x). split.
  - rewrite (get_student_run ObjectId i w d) by done.
    rewrite Ho, Hc, find_middle; [done | |].
    + intros y Hy. apply not_true_iff_false. rewrite plain_id_matches. by apply Hl.
    + by apply plain_id_matches.
  - unfold public_doc. split; [by rewrite lookup_insert_eq |].
    split; [by rewrite lookup_insert_ne, lookup_delete_eq |].
    intros k H1 H2.
    by rewrite lookup_insert_ne, lookup_delete_ne, to_dict_lookup_ne.
Qed.

End Facts.



(** C3, the claim as stated fails: a sheet with no subjects and no totals is
    stored with a null percentage and a null total_max, not with 0. *)
Lemma create_marksheet_empty_subjects_null :
  let sheet := sheet_of [] None None in
  let w' := (create_marksheet demo_str sheet (demo_world empty_database)).2 in
  Marksheet.constraints sheet = true
  /\ stored_field "marksheet" "percentage" w' = Some VNone
  /\ stored_field "marksheet" "total_max" w' = Some VNone.
Proof. vm_compute. repeat split. Qed.

(** C4: a sheet that passes validation, with marks above max_marks, is
    stored with a percentage above 100. *)
Lemma create_marksheet_percentage_above_100 :
  let sheet := sheet_of [subject "Math" 150 100] None None in
  let w' := (create_marksheet demo_str sheet (demo_world empty_database)).2 in
  Marksheet.constraints sheet = true
  /\ stored_field "marksheet" "percentage" w' = Some (VFloat 150)
  /\ stored_field "marksheet" "grade" w' = Some (VStr "A+")
  /\ Qle_bool 150 100 = false.
Proof. vm_compute. repeat split. Qed.



(** C3, an instance: no subjects, a caller-supplied percentage. *)
Lemma create_marksheet_empty_subjects_witness :
  let sheet := sheet_of [] (Some 75%Q) None in
  grade_sheet sheet = Ok sheet
  /\ exists w', stored_field "marksheet" "percentage" w' = Some (VFloat 75).
Proof.
  intros sheet.
  destruct (create_marksheet_empty_subjects demo_str sheet
              (demo_world empty_database) empty_database)
    as (Hg & id & w' & _ & _ & _ & Hp & _);
    [reflexivity | reflexivity | reflexivity | reflexivity |].
  split; [exact Hg |]. exists w'. exact Hp.
Defined.


(** C6, an instance. *)
Lemma unconfigured_store_witness :
  get_student demo_str demo_ObjectId "abc" unconfigured_world
  = (Raise (HTTPException 503 db_not_configured), unconfigured_world).
Proof.
  destruct (unconfigured_store demo_str demo_ObjectId unconfigured_world)
    as (_ & _ & H & _); [reflexivity |].
  apply H.
Defined.

(** C7, an instance. *)
Lemma list_handlers_filter_witness :
  list_students demo_str None None (demo_world two_students)
  = (Ok (map (public_doc demo_str) (coll two_students "student")),
     demo_world two_students).
Proof.
  destruct (list_handlers_filter demo_str (demo_world two_students) two_students)
    as (_ & _ & _ & _ & H & _); [reflexivity | reflexivity | reflexivity |].
  exact H.
Defined.

(** C7, the claim as stated fails: with [section] supplied as the empty
    string, both students are returned, although no student has that
    section. *)
Lemma list_students_empty_string_filter :
  match (list_students demo_str None (Some "") (demo_world two_students)).1 with
  | Ok docs => map (fun doc : pydict => doc !! "section") docs
  | Raise _ => []
  end = [Some (VStr "A"); Some (VStr "B")].
Proof. vm_compute. reflexivity. Qed.




(** C10, an instance: a caller's dictionary passed by reference. *)
Lemma create_document_keeps_input_witness :
  let rec : pydict := {[ "roll_no" := VStr "9" ]} in
  let w := set_heap [rec] (demo_world empty_database) in
  heap (create_document demo_str "student" (DDict 0) w).2 !! 0%nat = Some rec.
Proof.
  intros rec w.
  destruct (create_document_keeps_input demo_str "student" 0 w rec) as (H & _);
    [reflexivity |].
  exact H.
Defined.


(** X2, an instance. *)
Lemma letter_grade_monotone_witness :
  (grade_rank (letter_grade (8999 # 100)) <= grade_rank (letter_grade 90))%nat.
Proof.
  apply letter_grade_monotone. vm_compute. discriminate.
Defined.





(** X7, an instance: a malformed identifier that no document carries. *)
Lemma get_student_not_found_witness :
  get_student demo_str demo_ObjectId "nobody" (demo_world two_students)
  = (Raise (HTTPException 404 "Student not found"), demo_world two_students).
Proof.
  apply (get_student_not_found demo_str demo_ObjectId _ _ two_students);
    [reflexivity | reflexivity | reflexivity |].
  simpl. intros x Hx.
  change (x ∈ [ {| doc_id := VObjectId 0;
                   doc_fields := Student.model_dump (student_of "Asha" "1" "5" (Some "A")) |};
                {| doc_id := VObjectId 1;
                   doc_fields := Student.model_dump (student_of "Ravi" "2" "5" (Some "B")) |} ])
    in Hx.
  apply elem_of_cons in Hx as [-> | Hx]; [discriminate |].
  apply list_elem_of_singleton in Hx as ->. discriminate.
Defined.


(** X11, an instance. *)
Lemma create_document_appends_only_witness :
  exists d' new,
    db (create_document demo_str "student"
          (DModel (MStudent (student_of "Asha" "1" "5" None)))
          (demo_world two_students)).2 = Some d'
    /\ coll d' "student" = (coll two_students "student" ++ new)%list
    /\ (length new <= 1)%nat.
Proof.
  destruct (create_document_appends_only demo_str "student"
              (DModel (MStudent (student_of "Asha" "1" "5" None)))
              (demo_world two_students) two_students)
    as (d' & new & H1 & H2 & H3 & _); [reflexivity |].
  exists d', new. split; [exact H1 |]. split; [exact H2 | exact H3].
Defined.

(** X13, an instance. *)
Lemma create_then_list_marksheets_witness :
  exists id w1 docs doc,
    create_marksheet demo_str (sheet_of [subject "Math" 45 50] None None)
      (demo_world empty_database) = (Ok {[ "id" := VStr id ]}, w1)
    /\ list_marksheets demo_str (Some "s1") (Some "Half-Yearly") w1 = (Ok docs, w1)
    /\ last docs = Some doc
    /\ doc !! "id" = Some (VStr id).
Proof.
  destruct (create_then_list_marksheets demo_str
              (sheet_of [subject "Math" 45 50] None None)
              (demo_world empty_database) empty_database)
    as (id & w1 & docs & doc & H1 & H2 & H3 & H4 & _);
    [reflexivity | reflexivity | reflexivity |].
  exists id, w1, docs, doc. repeat split; assumption.
Defined.

(** X15, an instance. *)
Lemma get_student_fallback_witness :
  exists doc,
    get_student demo_str demo_ObjectId "legacy-1" (demo_world plain_id_students)
    = (Ok doc, demo_world plain_id_students)
    /\ doc !! "id" = Some (VStr (demo_str (VObjectId 7))).
Proof.
  destruct (get_student_fallback demo_str demo_ObjectId "legacy-1"
              (demo_world plain_id_students) plain_id_students
              (Exception "InvalidId") []
              {| doc_id := VObjectId 7;
                 doc_fields := <["id" := VStr "legacy-1"]>
                                 (Student.model_dump (student_of "Asha" "1" "5" None)) |}
              [])
    as (doc & H1 & H2 & _);
    [reflexivity | reflexivity | reflexivity | reflexivity | reflexivity
    | intros y Hy; inversion Hy | reflexivity |].
  exists doc. split; [exact H1 | exact H2].
Defined.
